(** * Axis-aligned bounding boxes of the physics module

    A shallow embedding of [src/physics/bounds.js] (class [Bounds]) and the
    properties its specification states about it.

    - [JSNumber]: the values a JavaScript number can take, with the
      relational operators and the rounded addition the class uses.
    - [Point]: point-like values with an [x] and a [y].
    - [Bounds]: the state of one instance and the methods that touch only
      that instance, as functions from state to state.
    - [Heap]: instances stored by reference, for the methods that receive
      another instance ([addBounds]), where receiver and argument may be
      the same object. *)

From Stdlib Require Import ZArith Lia.
From stdpp Require Import base option list gmap.

(** ** JavaScript numbers *)

Module JSNumber.

Local Open Scope Z_scope.

(** A number is NaN, one of the two infinities, or a finite value.  The
    finite value [Finite k] is [k * 2^-1074]: every finite binary64 value
    is such a multiple, [2^-1074] being the smallest positive one.  The
    finite numbers of the language are those [round] leaves as they are.
    [-0] is identified with [0] (the class never divides, so the two are
    indistinguishable in it). *)
Inductive Number : Type :=
  | NaN
  | NegInfinity
  | Finite (k : Z)
  | Infinity.

Definition isNaN (a : Number) : bool :=
  match a with NaN => true | _ => false end.

Definition isFinite (a : Number) : bool :=
  match a with Finite _ => true | _ => false end.

(** The abstract relational comparison of the language: [None] stands for
    the undefined result obtained as soon as one operand is NaN. *)
Definition compare (a b : Number) : option comparison :=
  match a, b with
  | NaN, _ | _, NaN => None
  | NegInfinity, NegInfinity => Some Eq
  | NegInfinity, _ => Some Lt
  | _, NegInfinity => Some Gt
  | Infinity, Infinity => Some Eq
  | Infinity, _ => Some Gt
  | _, Infinity => Some Lt
  | Finite p, Finite q => Some (p ?= q)
  end.

(** [a < b], [a > b], [a <= b], [a >= b]. *)
Definition lt (a b : Number) : bool :=
  match compare a b with Some Lt => true | _ => false end.

Definition gt (a b : Number) : bool :=
  match compare a b with Some Gt => true | _ => false end.

Definition le (a b : Number) : bool :=
  match compare a b with Some Lt | Some Eq => true | _ => false end.

Definition ge (a b : Number) : bool :=
  match compare a b with Some Gt | Some Eq => true | _ => false end.

(** [2^1024], the first magnitude that is no longer finite, counted in
    units of [2^-1074]. *)
Definition overflow_threshold : Z := 2 ^ 2098.

(** Rounding of a magnitude [m >= 0] to the nearest binary64 magnitude,
    ties to the even significand.  Below [2^53] units (the subnormal range
    and the first binade) every multiple of the unit is a binary64 value.
    From there on a value keeps 53 significant bits: with
    [2^n <= m < 2^(n+1)] the neighbours of [m] are the multiples of
    [2^(n-52)]. *)
Definition round_magnitude (m : Z) : Z :=
  if m <? 2 ^ 53 then m
  else
    let s := Z.log2 m - 52 in
    let q := m / 2 ^ s in
    let r := m mod 2 ^ s in
    let half := 2 ^ (s - 1) in
    let q := if r <? half then q
             else if half <? r then q + 1
             else if Z.even q then q else q + 1 in
    q * 2 ^ s.

(** Rounding of the exact result [k] of an operation: the sign is kept,
    the magnitude is rounded, and a rounded magnitude of [2^1024] or more
    gives the infinity of that sign. *)
Definition round (k : Z) : Number :=
  let m := round_magnitude (Z.abs k) in
  if overflow_threshold <=? m
  then (if k <? 0 then NegInfinity else Infinity)
  else Finite (Z.sgn k * m).

Arguments round_magnitude : simpl never.
Arguments round : simpl never.

(** [a + b]: NaN is absorbing, opposite infinities cancel to NaN, and the
    exact sum of two finite numbers is rounded. *)
Definition add (a b : Number) : Number :=
  match a, b with
  | NaN, _ | _, NaN => NaN
  | Infinity, NegInfinity | NegInfinity, Infinity => NaN
  | Infinity, _ | _, Infinity => Infinity
  | NegInfinity, _ | _, NegInfinity => NegInfinity
  | Finite p, Finite q => round (p + q)
  end.

(** Unary minus, which is exact. *)
Definition neg (a : Number) : Number :=
  match a with
  | NaN => NaN
  | NegInfinity => Infinity
  | Finite k => Finite (- k)
  | Infinity => NegInfinity
  end.

(** [a - b]. *)
Definition sub (a b : Number) : Number := add a (neg b).

Declare Scope js_scope.
Delimit Scope js_scope with js.
Bind Scope js_scope with Number.
Infix "<?" := lt (at level 70, no associativity) : js_scope.
Infix ">?" := gt (at level 70, no associativity) : js_scope.
Infix "<=?" := le (at level 70, no associativity) : js_scope.
Infix ">=?" := ge (at level 70, no associativity) : js_scope.
Infix "+" := add : js_scope.
Infix "-" := sub : js_scope.
Notation "- a" := (neg a) : js_scope.

(** A finite number given by an integer literal: [z] is [z * 2^1074]
    units. *)
Definition of_Z (z : Z) : Number := Finite (z * 2 ^ 1074).

Arguments of_Z : simpl never.

(** The order of the extended number line, as a relation: NaN is related
    to nothing, [-Infinity] lies below and [+Infinity] above every other
    number. *)
Inductive Leq : Number -> Number -> Prop :=
  | Leq_bottom b : isNaN b = false -> Leq NegInfinity b
  | Leq_top a : isNaN a = false -> Leq a Infinity
  | Leq_finite p q : p <= q -> Leq (Finite p) (Finite q).

(** The strict order: never with NaN, never between equal numbers. *)
Inductive Less : Number -> Number -> Prop :=
  | Less_bottom_finite q : Less NegInfinity (Finite q)
  | Less_bottom_top : Less NegInfinity Infinity
  | Less_finite_top p : Less (Finite p) Infinity
  | Less_finite p q : p < q -> Less (Finite p) (Finite q).

End JSNumber.

Import JSNumber.

(** ** Points *)

(** The point-like objects of the class: the vertices and vectors it
    receives (objects with a numeric [x] and [y]) and its own two corners,
    the object literals [{ x: ..., y: ... }] built by the constructor. *)
Module Point.

Record t : Type := mk { x : Number; y : Number }.

End Point.

(** ** One instance of the class *)

Module Bounds.

Local Open Scope js_scope.

(** The fields of an instance: [this.min] and [this.max].  The constructor
    creates the two corner objects and no method replaces or hands out
    either of them, so they are held by value. *)
Record t : Type := mk { min : Point.t; max : Point.t }.

Definition min_x (this : t) : Number := Point.x (min this).
Definition min_y (this : t) : Number := Point.y (min this).
Definition max_x (this : t) : Number := Point.x (max this).
Definition max_y (this : t) : Number := Point.y (max this).

(** The four field assignments [this.min.x = v], ..., [this.max.y = v]. *)
Definition set_min_x (v : Number) (this : t) : t :=
  mk (Point.mk v (min_y this)) (max this).
Definition set_min_y (v : Number) (this : t) : t :=
  mk (Point.mk (min_x this) v) (max this).
Definition set_max_x (v : Number) (this : t) : t :=
  mk (min this) (Point.mk v (max_y this)).
Definition set_max_y (v : Number) (this : t) : t :=
  mk (min this) (Point.mk (max_x this) v).

(** [setMinMax(minX, minY, maxX, maxY)] *)
Definition setMinMax (minX minY maxX maxY : Number) (this : t) : t :=
  let this := set_min_x minX this in
  let this := set_min_y minY this in
  let this := set_max_x maxX this in
  set_max_y maxY this.

(** [clear()] *)
Definition clear (this : t) : t :=
  setMinMax Infinity Infinity NegInfinity NegInfinity this.

(** [get x()] and [set x(value)] *)
Definition get_x (this : t) : Number := min_x this.

Definition set_x (value : Number) (this : t) : t :=
  let deltaX := max_x this - min_x this in
  let this := set_min_x value this in
  set_max_x (value + deltaX) this.

(** [get y()] and [set y(value)] *)
Definition get_y (this : t) : Number := min_y this.

Definition set_y (value : Number) (this : t) : t :=
  let deltaY := max_y this - min_y this in
  let this := set_min_y value this in
  set_max_y (value + deltaY) this.

(** [get width()] and [set width(value)] *)
Definition get_width (this : t) : Number := max_x this - min_x this.

Definition set_width (value : Number) (this : t) : t :=
  set_max_x (min_x this + value) this.

(** [get height()] and [set height(value)] *)
Definition get_height (this : t) : Number := max_y this - min_y this.

Definition set_height (value : Number) (this : t) : t :=
  set_max_y (min_y this + value) this.

(** The body of the loop of [add], for one [vertex]: four independent
    conditional assignments, in the order of the source. *)
Definition add_vertex (vertex : Point.t) (this : t) : t :=
  let this := if Point.x vertex >? max_x this
              then set_max_x (Point.x vertex) this else this in
  let this := if Point.x vertex <? min_x this
              then set_min_x (Point.x vertex) this else this in
  let this := if Point.y vertex >? max_y this
              then set_max_y (Point.y vertex) this else this in
  if Point.y vertex <? min_y this
  then set_min_y (Point.y vertex) this else this.

(** The loop [for (i = 0; i < vertices.length; i++)] of [add]. *)
Fixpoint add_loop (vertices : list Point.t) (this : t) : t :=
  match vertices with
  | [] => this
  | vertex :: rest => add_loop rest (add_vertex vertex this)
  end.

(** [add(vertices, clear = false)] *)
Definition add (vertices : list Point.t) (clear_flag : bool) (this : t) : t :=
  let this := if clear_flag then clear this else this in
  add_loop vertices this.

(** [update(vertices)] *)
Definition update (vertices : list Point.t) (this : t) : t :=
  add vertices true this.

(** [new Bounds(vertices)]; [None] is the call without argument. *)
Definition new (vertices : option (list Point.t)) : t :=
  let this := mk (Point.mk Infinity Infinity)
                 (Point.mk NegInfinity NegInfinity) in
  match vertices with
  | None => this
  | Some vertices => update vertices this
  end.

(** [contains(point)] *)
Definition contains (this : t) (point : Point.t) : bool :=
  (Point.x point >=? min_x this) && (Point.x point <=? max_x this)
  && (Point.y point >=? min_y this) && (Point.y point <=? max_y this).

(** [overlaps(bounds)]: both instances are only read. *)
Definition overlaps (this bounds : t) : bool :=
  (min_x this <=? max_x bounds) && (max_x this >=? min_x bounds)
  && (max_y this >=? min_y bounds) && (min_y this <=? max_y bounds).

(** [translate(vector)] *)
Definition translate (vector : Point.t) (this : t) : t :=
  let this := set_min_x (min_x this + Point.x vector) this in
  let this := set_max_x (max_x this + Point.x vector) this in
  let this := set_min_y (min_y this + Point.y vector) this in
  set_max_y (max_y this + Point.y vector) this.

(** [shift(vector)] *)
Definition shift (vector : Point.t) (this : t) : t :=
  let deltaX := max_x this - min_x this in
  let deltaY := max_y this - min_y this in
  let this := set_min_x (Point.x vector) this in
  let this := set_max_x (Point.x vector + deltaX) this in
  let this := set_min_y (Point.y vector) this in
  set_max_y (Point.y vector + deltaY) this.

(** [resize(width, height)] *)
Definition resize (width height : Number) (this : t) : t :=
  let this := set_width width this in
  set_height height this.

(** [clone()]: the state of the new instance. *)
Definition clone (this : t) : t :=
  let bounds := new None in
  setMinMax (min_x this) (min_y this) (max_x this) (max_y this) bounds.

End Bounds.

(** ** Instances held by reference *)

Module Heap.

Import Bounds.
Local Open Scope js_scope.

(** Objects are named by references; the heap gives the state of every
    live instance.  Reading through a reference the heap does not know
    fails ([None]). *)
Abbreviation ref := nat (only parsing).
Abbreviation heap := (gmap nat Bounds.t) (only parsing).

(** A call [this.m(...)] of a method that touches only its receiver. *)
Definition call (this : ref) (m : Bounds.t -> Bounds.t) (σ : heap)
  : option heap :=
  t ← σ !! this; Some (<[this := m t]> σ).

(** The four statements of [addBounds], each reading the receiver and the
    argument from the current heap. *)
Definition addBounds_max_x (this bounds : ref) (σ : heap) : option heap :=
  b ← σ !! bounds; t ← σ !! this;
  if max_x b >? max_x t
  then Some (<[this := set_max_x (max_x b) t]> σ) else Some σ.

Definition addBounds_min_x (this bounds : ref) (σ : heap) : option heap :=
  b ← σ !! bounds; t ← σ !! this;
  if min_x b <? min_x t
  then Some (<[this := set_min_x (min_x b) t]> σ) else Some σ.

Definition addBounds_max_y (this bounds : ref) (σ : heap) : option heap :=
  b ← σ !! bounds; t ← σ !! this;
  if max_y b >? max_y t
  then Some (<[this := set_max_y (max_y b) t]> σ) else Some σ.

Definition addBounds_min_y (this bounds : ref) (σ : heap) : option heap :=
  b ← σ !! bounds; t ← σ !! this;
  if min_y b <? min_y t
  then Some (<[this := set_min_y (max_y b) t]> σ) else Some σ.

(** The opening [if (clear === true) this.clear()] of [addBounds]. *)
Definition addBounds_clear (this : ref) (clear_flag : bool) (σ : heap)
  : option heap :=
  if clear_flag then call this clear σ else Some σ.

(** [addBounds(bounds, clear = false)] *)
Definition addBounds (this bounds : ref) (clear_flag : bool) (σ : heap)
  : option heap :=
  σ ← addBounds_clear this clear_flag σ;
  σ ← addBounds_max_x this bounds σ;
  σ ← addBounds_min_x this bounds σ;
  σ ← addBounds_max_y this bounds σ;
  addBounds_min_y this bounds σ.

(** The receiver [t] after the four statements of [addBounds], when the
    argument [b] is another object, which the statements leave as it is. *)
Definition merged (b t : Bounds.t) : Bounds.t :=
  let t := if max_x b >? max_x t then set_max_x (max_x b) t else t in
  let t := if min_x b <? min_x t then set_min_x (min_x b) t else t in
  let t := if max_y b >? max_y t then set_max_y (max_y b) t else t in
  if min_y b <? min_y t then set_min_y (max_y b) t else t.

(** Receiver and argument both name an instance of the heap. *)
Definition live (this bounds : ref) (σ : heap) : Prop :=
  is_Some (σ !! this) /\ is_Some (σ !! bounds).

End Heap.

(** ** Vocabulary of the properties *)

Module Spec.

Import Bounds.

(** The empty state: [min = (+Infinity, +Infinity)],
    [max = (-Infinity, -Infinity)]. *)
Definition empty : Bounds.t :=
  Bounds.mk (Point.mk Infinity Infinity) (Point.mk NegInfinity NegInfinity).

Definition finite_point (p : Point.t) : Prop :=
  isFinite (Point.x p) = true /\ isFinite (Point.y p) = true.

Definition finite_bounds (b : Bounds.t) : Prop :=
  finite_point (min b) /\ finite_point (max b).

(** No coordinate is NaN. *)
Definition numeric_point (p : Point.t) : Prop :=
  isNaN (Point.x p) = false /\ isNaN (Point.y p) = false.

Definition numeric (b : Bounds.t) : Prop :=
  numeric_point (min b) /\ numeric_point (max b).

(** [p] lies in the closed rectangle [[min.x, max.x] x [min.y, max.y]]. *)
Definition inside (b : Bounds.t) (p : Point.t) : Prop :=
  Leq (min_x b) (Point.x p) /\ Leq (Point.x p) (max_x b)
  /\ Leq (min_y b) (Point.y p) /\ Leq (Point.y p) (max_y b).

(** [min <= max] on both axes: the box has a content. *)
Definition ordered (b : Bounds.t) : Prop :=
  Leq (min_x b) (max_x b) /\ Leq (min_y b) (max_y b).

(** The extent of [inner] lies within the extent of [outer], axis by axis. *)
Definition includes (outer inner : Bounds.t) : Prop :=
  Leq (min_x outer) (min_x inner) /\ Leq (max_x inner) (max_x outer)
  /\ Leq (min_y outer) (min_y inner) /\ Leq (max_y inner) (max_y outer).

(** [b] includes the box [prev] and contains every point of [V]. *)
Definition encloses (b prev : Bounds.t) (V : list Point.t) : Prop :=
  includes b prev /\ Forall (inside b) V.

(** [r] is the least box, for the inclusion of extents, that encloses
    [prev] and [V]. *)
Definition smallest_enclosing (r prev : Bounds.t) (V : list Point.t) : Prop :=
  encloses r prev V /\ forall b, encloses b prev V -> includes b r.

(** [b] contains the union of the content of [prev] and of the points of
    [V], as a set of points. *)
Definition covers (b prev : Bounds.t) (V : list Point.t) : Prop :=
  forall p, inside prev p \/ In p V -> inside b p.

(** [r] is the smallest box containing that union. *)
Definition smallest_cover (r prev : Bounds.t) (V : list Point.t) : Prop :=
  covers r prev V /\ forall b, numeric b -> covers b prev V -> includes b r.


(** [a] is a number of the language: a finite one is a value that
    rounding leaves as it is. *)
Definition binary64 (a : Number) : Prop :=
  match a with
  | Finite k => round k = Finite k
  | _ => True
  end.


(** The sum of the finite numbers [a] and [b] is computed exactly: it is
    neither rounded nor overflowing. *)
Definition exact_sum (a b : Number) : Prop :=
  match a, b with
  | Finite p, Finite q => round (p + q) = Finite (p + q)
  | _, _ => False
  end.





(** The sum of two vectors, component by component. *)
Definition plus (v w : Point.t) : Point.t :=
  Point.mk (Point.x v + Point.x w)%js (Point.y v + Point.y w)%js.

(** None of the four tests of the loop body of [add] succeeds for [v]. *)
Definition absorbs (b : Bounds.t) (v : Point.t) : Prop :=
  (Point.x v >? max_x b)%js = false /\ (Point.x v <? min_x b)%js = false
  /\ (Point.y v >? max_y b)%js = false /\ (Point.y v <? min_y b)%js = false.

End Spec.

(** ** Concrete instances and points used by the examples *)

Module Examples.

Import Bounds.

Definition origin : Point.t := Point.mk (of_Z 0) (of_Z 0).

(** [min = (0, 0)], [max = (2, 2)]. *)
Definition square2 : Bounds.t :=
  setMinMax (of_Z 0) (of_Z 0) (of_Z 2) (of_Z 2) (new None).

(** [min = (0, 0)], [max = (1, 1)]. *)
Definition unit_box : Bounds.t :=
  setMinMax (of_Z 0) (of_Z 0) (of_Z 1) (of_Z 1) (new None).

(** [min = (0, 0)], [max = (10, 10)]. *)
Definition big_box : Bounds.t :=
  setMinMax (of_Z 0) (of_Z 0) (of_Z 10) (of_Z 10) (new None).

(** [min = (-5, -5)], [max = (5, 5)]. *)
Definition centred_box : Bounds.t :=
  setMinMax (of_Z (-5)) (of_Z (-5)) (of_Z 5) (of_Z 5) (new None).

(** [min = (5, 0)], [max = (3, 0)]: [min.x] is above [max.x], the state
    after [setMinMax(5, 0, 3, 0)]. *)
Definition crossed_box : Bounds.t :=
  setMinMax (of_Z 5) (of_Z 0) (of_Z 3) (of_Z 0) (new None).

(** The degenerate box [[10, 10] x [0, 0]]. *)
Definition dot_box : Bounds.t :=
  setMinMax (of_Z 10) (of_Z 0) (of_Z 10) (of_Z 0) (new None).

Definition far_point : Point.t := Point.mk (of_Z 10) (of_Z 0).

(** A vertex whose [x] is NaN. *)
Definition nan_point : Point.t := Point.mk NaN (of_Z 0).


Definition vector34 : Point.t := Point.mk (of_Z 3) (of_Z 4).

(** The vertices of the scenario of the specification:
    [(1, 1)], [(-1, -1)], [(0, 5)]. *)
Definition scenario : list Point.t :=
  [ Point.mk (of_Z 1) (of_Z 1); Point.mk (of_Z (-1)) (of_Z (-1));
    Point.mk (of_Z 0) (of_Z 5) ].

(** The largest finite number, [(2^53 - 1) * 2^971]. *)
Definition max_value : Number := of_Z ((2 ^ 53 - 1) * 2 ^ 971).





(** A heap with two instances, and a heap with one. *)
Definition two_boxes : gmap nat Bounds.t :=
  <[1 := centred_box]> {[ 0 := big_box ]}.

Definition one_box : gmap nat Bounds.t := {[ 0 := unit_box ]}.

End Examples.

(** ** Facts about numbers *)

Module NumberFacts.

Local Open Scope js_scope.

Lemma compare_Lt a b : compare a b = Some Lt <-> Less a b.
Proof.
  split.
  - destruct a, b; simpl; intros H; try discriminate; try constructor.
    apply Z.compare_lt_iff. congruence.
  - intros H. destruct H; simpl; try reflexivity.
    f_equal. apply Z.compare_lt_iff. assumption.
Qed.

Lemma compare_Gt a b : compare a b = Some Gt <-> Less b a.
Proof.
  split.
  - destruct a, b; simpl; intros H; try discriminate; try constructor.
    apply Z.compare_gt_iff. congruence.
  - intros H. destruct H; simpl; try reflexivity.
    f_equal. apply Z.compare_gt_iff. assumption.
Qed.

Lemma compare_Eq a b : compare a b = Some Eq <-> a = b /\ isNaN a = false.
Proof.
  split.
  - destruct a, b; simpl; intros H; try discriminate; try (split; reflexivity).
    split; [| reflexivity]. f_equal. apply Z.compare_eq_iff. congruence.
  - intros [-> H]. destruct b; simpl in *; try discriminate; try reflexivity.
    f_equal. apply Z.compare_refl.
Qed.

Lemma compare_None a b :
  compare a b = None <-> isNaN a = true \/ isNaN b = true.
Proof.
  destruct a, b; simpl; split; intros H;
    try discriminate; try reflexivity; auto;
    destruct H; discriminate.
Qed.

Lemma gt_lt a b : (a >? b) = (b <? a).
Proof.
  unfold gt, lt.
  destruct (compare a b) as [[ | | ] | ] eqn:E.
  - apply compare_Eq in E as [-> E].
    assert (compare b b = Some Eq) as -> by (apply compare_Eq; auto).
    reflexivity.
  - apply compare_Lt in E. apply compare_Gt in E. rewrite E. reflexivity.
  - apply compare_Gt in E. apply compare_Lt in E. rewrite E. reflexivity.
  - apply compare_None in E.
    assert (compare b a = None) as -> by (apply compare_None; tauto).
    reflexivity.
Qed.

Lemma ge_le a b : (a >=? b) = (b <=? a).
Proof.
  unfold ge, le.
  destruct (compare a b) as [[ | | ] | ] eqn:E.
  - apply compare_Eq in E as [-> E].
    assert (compare b b = Some Eq) as -> by (apply compare_Eq; auto).
    reflexivity.
  - apply compare_Lt in E. apply compare_Gt in E. rewrite E. reflexivity.
  - apply compare_Gt in E. apply compare_Lt in E. rewrite E. reflexivity.
  - apply compare_None in E.
    assert (compare b a = None) as -> by (apply compare_None; tauto).
    reflexivity.
Qed.

Lemma lt_iff a b : (a <? b) = true <-> Less a b.
Proof.
  rewrite <- compare_Lt. unfold lt.
  destruct (compare a b) as [[ | | ] | ]; split; congruence.
Qed.

Lemma gt_iff a b : (a >? b) = true <-> Less b a.
Proof. rewrite gt_lt. apply lt_iff. Qed.

Lemma Less_Leq a b : Less a b -> Leq a b.
Proof.
  intros H. destruct H; try (constructor; reflexivity).
  constructor. apply Z.lt_le_incl. assumption.
Qed.

Lemma Leq_refl a : isNaN a = false -> Leq a a.
Proof.
  destruct a; simpl; intros H; try discriminate;
    constructor; try reflexivity; apply Z.le_refl.
Qed.

Lemma Leq_numeric_l a b : Leq a b -> isNaN a = false.
Proof. intros H. destruct H; auto. Qed.

Lemma Leq_numeric_r a b : Leq a b -> isNaN b = false.
Proof. intros H. destruct H; auto. Qed.

Lemma Leq_trans a b c : Leq a b -> Leq b c -> Leq a c.
Proof.
  intros Hab Hbc.
  pose proof (Leq_numeric_l _ _ Hab) as Ha.
  pose proof (Leq_numeric_r _ _ Hbc) as Hc.
  destruct Hab; inversion Hbc; subst; simpl in *; try discriminate;
    first [ apply Leq_bottom; assumption
          | apply Leq_top; assumption
          | apply Leq_finite; eapply Z.le_trans; eassumption ].
Qed.

Lemma le_iff a b : (a <=? b) = true <-> Leq a b.
Proof.
  unfold le. split.
  - destruct (compare a b) as [[ | | ] | ] eqn:E; try discriminate; intros _.
    + apply compare_Eq in E as [-> E]. apply Leq_refl. assumption.
    + apply Less_Leq. apply compare_Lt. assumption.
  - intros H. destruct H as [b Hb | a Ha | p q Hpq].
    + destruct b; simpl in *; try discriminate; reflexivity.
    + destruct a; simpl in *; try discriminate; reflexivity.
    + simpl. apply Z.compare_le_iff in Hpq.
      destruct (p ?= q)%Z eqn:E; try reflexivity.
      exfalso. apply Hpq. reflexivity.
Qed.

Lemma ge_iff a b : (a >=? b) = true <-> Leq b a.
Proof. rewrite ge_le. apply le_iff. Qed.

(** For two numbers that are not NaN, [a < b] being false means [b <= a]. *)
Lemma lt_false_Leq a b :
  isNaN a = false -> isNaN b = false -> (a <? b) = false -> Leq b a.
Proof.
  intros Ha Hb H. unfold lt in H.
  destruct (compare a b) as [[ | | ] | ] eqn:E; try discriminate.
  - apply compare_Eq in E as [-> _]. apply Leq_refl. assumption.
  - apply Less_Leq. apply compare_Gt. assumption.
  - apply compare_None in E. destruct E; congruence.
Qed.

Lemma gt_false_Leq a b :
  isNaN a = false -> isNaN b = false -> (a >? b) = false -> Leq a b.
Proof. rewrite gt_lt. intros Ha Hb H. apply lt_false_Leq; assumption. Qed.

Lemma Less_numeric_l a b : Less a b -> isNaN a = false.
Proof. intros H. destruct H; reflexivity. Qed.

Lemma Less_numeric_r a b : Less a b -> isNaN b = false.
Proof. intros H. destruct H; reflexivity. Qed.

Lemma isFinite_numeric a : isFinite a = true -> isNaN a = false.
Proof. destruct a; simpl; congruence. Qed.

(** *** Order *)

Lemma Leq_antisym a b : Leq a b -> Leq b a -> a = b.
Proof.
  intros Hab Hba.
  destruct Hab; inversion Hba; subst; simpl in *;
    try discriminate; try reflexivity.
  f_equal. apply Z.le_antisymm; assumption.
Qed.

Lemma Less_trans a b c : Less a b -> Less b c -> Less a c.
Proof.
  intros Hab Hbc.
  destruct Hab; inversion Hbc; subst; try constructor.
  eapply Z.lt_trans; eassumption.
Qed.

Lemma Less_irrefl a : ~ Less a a.
Proof.
  intros H. inversion H; subst.
  eapply Z.lt_irrefl; eassumption.
Qed.

Lemma Less_not_Leq a b : Less a b -> ~ Leq b a.
Proof.
  intros Hab Hba.
  destruct Hab; inversion Hba; subst; simpl in *; try discriminate.
  lia.
Qed.

Lemma gt_irrefl a : (a >? a) = false.
Proof.
  destruct (a >? a) eqn:E; [| reflexivity].
  apply gt_iff in E. destruct (Less_irrefl _ E).
Qed.

Lemma lt_irrefl a : (a <? a) = false.
Proof. rewrite <- gt_lt. apply gt_irrefl. Qed.

Lemma Leq_gt_false a b : Leq a b -> (a >? b) = false.
Proof.
  intros H. destruct (a >? b) eqn:E; [| reflexivity].
  apply gt_iff in E. destruct (Less_not_Leq _ _ E H).
Qed.

Lemma Leq_lt_false a b : Leq a b -> (b <? a) = false.
Proof. rewrite <- gt_lt. apply Leq_gt_false. Qed.

Lemma le_false_Leq a b :
  isNaN a = false -> isNaN b = false -> (a <=? b) = false -> Leq b a.
Proof.
  intros Ha Hb H. destruct (b <? a) eqn:E.
  - apply Less_Leq, lt_iff, E.
  - apply (lt_false_Leq _ _ Hb Ha) in E.
    apply le_iff in E. congruence.
Qed.

(** A test against NaN never succeeds. *)
Lemma gt_NaN_false a b : isNaN a = true \/ isNaN b = true -> (a >? b) = false.
Proof.
  intros H. destruct (a >? b) eqn:E; [| reflexivity].
  apply gt_iff in E.
  pose proof (Less_numeric_l _ _ E). pose proof (Less_numeric_r _ _ E).
  destruct H; congruence.
Qed.

Lemma lt_NaN_false a b : isNaN a = true \/ isNaN b = true -> (a <? b) = false.
Proof. rewrite <- gt_lt. intros H. apply gt_NaN_false. tauto. Qed.

Lemma isFinite_inv a : isFinite a = true -> exists k, a = Finite k.
Proof. destruct a; intros H; try discriminate H. eauto. Qed.

(** *** Rounding *)

Section Rounding.

Local Open Scope Z_scope.

(** Known results of the language: [2^53 + 1] is [2^53],
    [2^53 + 2 + 1] is [2^53 + 4], [0.1 + 0.2] is [0.30000000000000004]
    (significand [5404319552844596], exponent [-54]), and the largest
    finite number plus itself, or plus half the spacing below it, is
    [Infinity]. *)
Example add_rounds_up_to_even :
  (of_Z (2 ^ 53) + of_Z 1)%js = of_Z (2 ^ 53)
  /\ (of_Z (2 ^ 53 + 2) + of_Z 1)%js = of_Z (2 ^ 53 + 4).
Proof. split; vm_compute; reflexivity. Qed.

Example add_tenth_and_fifth :
  (Finite (3602879701896397 * 2 ^ (1074 - 55))
   + Finite (3602879701896397 * 2 ^ (1074 - 54)))%js
  = Finite (5404319552844596 * 2 ^ (1074 - 54)).
Proof. vm_compute. reflexivity. Qed.

Example add_overflows :
  (Examples.max_value + Examples.max_value)%js = Infinity
  /\ (Examples.max_value + of_Z (2 ^ 970))%js = Infinity
  /\ (Examples.max_value + of_Z (2 ^ 969))%js = Examples.max_value.
Proof. repeat split; vm_compute; reflexivity. Qed.

Lemma round_magnitude_small m : m < 2 ^ 53 -> round_magnitude m = m.
Proof.
  intros H. unfold round_magnitude.
  destruct (Z.ltb_spec m (2 ^ 53)); [reflexivity | lia].
Qed.

(** The decomposition of a magnitude of at least [2^53] units used by
    [round_magnitude]: quotient and remainder by the spacing [2 * half]
    of its binade, with [half * 2^53 <= m]. *)
Lemma binade_decomposition m :
  2 ^ 53 <= m ->
  let s := Z.log2 m - 52 in
  let half := 2 ^ (s - 1) in
  2 ^ s = 2 * half /\ 0 < half /\ half * 2 ^ 53 <= m
  /\ m = 2 ^ s * (m / 2 ^ s) + m mod 2 ^ s
  /\ 0 <= m mod 2 ^ s < 2 ^ s
  /\ 2 ^ 52 <= m / 2 ^ s < 2 ^ 53.
Proof.
  intros Hm s half.
  assert (0 < m) as Hpos by lia.
  pose proof (Z.log2_spec m Hpos) as [Hlo Hhi].
  assert (53 <= Z.log2 m) as Hn by (apply Z.log2_le_pow2; lia).
  assert (1 <= s) as Hs by (subst s; lia).
  assert (2 ^ s = 2 * half) as HB.
  { subst half. replace s with (Z.succ (s - 1)) at 1 by lia.
    apply Z.pow_succ_r. lia. }
  assert (0 < half) as Hhalf by (subst half; apply Z.pow_pos_nonneg; lia).
  assert (half * 2 ^ 53 = 2 ^ Z.log2 m) as Hscale.
  { subst half. rewrite <- Z.pow_add_r by lia. f_equal. subst s. lia. }
  assert (2 ^ s * 2 ^ 52 = 2 ^ Z.log2 m) as Hlow.
  { rewrite <- Z.pow_add_r by lia. f_equal. subst s. lia. }
  assert (2 ^ s * 2 ^ 53 = 2 ^ Z.succ (Z.log2 m)) as Hup.
  { rewrite <- Z.pow_add_r by lia. f_equal. subst s. lia. }
  pose proof (Z.div_mod m (2 ^ s) ltac:(lia)) as Hdm.
  pose proof (Z.mod_pos_bound m (2 ^ s) ltac:(lia)) as Hmod.
  repeat split; try lia.
  - apply Z.div_le_lower_bound; lia.
  - apply Z.div_lt_upper_bound; lia.
Qed.

(** Rounding moves a magnitude by at most [2^-53] of itself. *)
Lemma round_magnitude_error m :
  0 <= m -> 2 ^ 53 * Z.abs (round_magnitude m - m) <= m.
Proof.
  intros Hm. unfold round_magnitude.
  destruct (Z.ltb_spec m (2 ^ 53)) as [Hsmall | Hbig].
  { replace (m - m) with 0 by lia. simpl Z.abs. lia. }
  destruct (binade_decomposition m Hbig)
    as (HB & Hhalf & Hscale & Hdm & Hmod & _).
  cbv zeta.
  set (s := Z.log2 m - 52) in *.
  set (half := 2 ^ (s - 1)) in *.
  set (q := m / 2 ^ s) in *. set (r := m mod 2 ^ s) in *.
  destruct (Z.ltb_spec r half) as [H1 | H1].
  - replace (q * 2 ^ s - m) with (- r) by lia. nia.
  - destruct (Z.ltb_spec half r) as [H2 | H2].
    + replace ((q + 1) * 2 ^ s - m) with (2 ^ s - r) by lia. nia.
    + assert (r = half) as Hr by lia.
      destruct (Z.even q).
      * replace (q * 2 ^ s - m) with (- r) by lia. nia.
      * replace ((q + 1) * 2 ^ s - m) with (2 ^ s - r) by lia. nia.
Qed.

Lemma round_magnitude_pos m : 0 < m -> 0 < round_magnitude m.
Proof.
  intros Hm. pose proof (round_magnitude_error m ltac:(lia)) as H.
  assert (2 <= 2 ^ 53) by (change 2 with (2 ^ 1) at 1;
                           apply Z.pow_le_mono_r; lia).
  lia.
Qed.

Lemma round_magnitude_zero : round_magnitude 0 = 0.
Proof. reflexivity. Qed.

(** The rounded result of an operation has the sign of the exact result:
    it is never below zero unless the exact result is. *)
Lemma round_nonneg k : Leq (Finite 0) (round k) <-> 0 <= k.
Proof.
  unfold round.
  destruct (Z.leb_spec overflow_threshold (round_magnitude (Z.abs k)))
    as [Hover | Hfin].
  - destruct (Z.ltb_spec k 0) as [Hneg | Hpos]; split; intros H;
      try lia; try (constructor; reflexivity).
    inversion H; subst; discriminate.
  - destruct (Z.eq_dec k 0) as [-> | Hnz].
    { split; intros _; [lia | constructor; simpl; lia]. }
    pose proof (round_magnitude_pos (Z.abs k) ltac:(lia)) as Hpos.
    split; intros H.
    + inversion H; subst. nia.
    + constructor. nia.
Qed.


(** The rounded magnitude is a multiple of the spacing of the binade, by
    the quotient or its successor, chosen from the remainder. *)
Lemma round_magnitude_big m :
  2 ^ 53 <= m ->
  let s := Z.log2 m - 52 in
  let q := m / 2 ^ s in
  let r := m mod 2 ^ s in
  let half := 2 ^ (s - 1) in
  exists q',
    round_magnitude m = q' * 2 ^ s
    /\ q <= q' <= q + 1
    /\ (r < half -> q' = q) /\ (half < r -> q' = q + 1).
Proof.
  intros Hm s q r half. unfold round_magnitude.
  destruct (Z.ltb_spec m (2 ^ 53)) as [Hsmall | _]; [lia |].
  cbv zeta. fold s. fold q. fold r. fold half.
  destruct (Z.ltb_spec r half) as [H1 | H1].
  - exists q. repeat split; lia.
  - destruct (Z.ltb_spec half r) as [H2 | H2].
    + exists (q + 1). repeat split; lia.
    + destruct (Z.even q).
      * exists q. repeat split; lia.
      * exists (q + 1). repeat split; lia.
Qed.

(** A magnitude with at most 53 significant bits is left as it is. *)
Lemma round_magnitude_fixed q s :
  2 ^ 52 <= q < 2 ^ 53 -> 1 <= s -> round_magnitude (q * 2 ^ s) = q * 2 ^ s.
Proof.
  intros Hq Hs.
  assert (0 < 2 ^ s) as HB by (apply Z.pow_pos_nonneg; lia).
  assert (2 ^ s = 2 * 2 ^ (s - 1)) as Hhalf.
  { replace s with (Z.succ (s - 1)) at 1 by lia. apply Z.pow_succ_r. lia. }
  assert (0 < 2 ^ (s - 1)) as Hhalfpos by (apply Z.pow_pos_nonneg; lia).
  assert (2 ^ (s + 52) = 2 ^ s * 2 ^ 52) as Hlow
    by (apply Z.pow_add_r; lia).
  assert (2 ^ Z.succ (s + 52) = 2 ^ s * 2 ^ 53) as Hup.
  { replace (Z.succ (s + 52)) with (s + 53) by lia. apply Z.pow_add_r; lia. }
  assert (Z.log2 (q * 2 ^ s) = s + 52) as Hlog.
  { apply Z.log2_unique; [lia |]. nia. }
  assert (2 ^ 53 <= q * 2 ^ s) as Hbig by nia.
  unfold round_magnitude.
  destruct (Z.ltb_spec (q * 2 ^ s) (2 ^ 53)) as [Hsmall | _]; [lia |].
  cbv zeta. rewrite Hlog. replace (s + 52 - 52) with s by lia.
  rewrite Z.div_mul by lia. rewrite Z.mod_mul by lia.
  destruct (Z.ltb_spec 0 (2 ^ (s - 1))); [reflexivity | lia].
Qed.

Lemma round_magnitude_idempotent m :
  0 <= m -> round_magnitude (round_magnitude m) = round_magnitude m.
Proof.
  intros Hm.
  destruct (Z.lt_ge_cases m (2 ^ 53)) as [Hsmall | Hbig].
  { rewrite (round_magnitude_small m Hsmall). apply round_magnitude_small.
    exact Hsmall. }
  destruct (binade_decomposition m Hbig)
    as (HB & Hhalf & Hscale & Hdm & Hmod & Hq).
  destruct (round_magnitude_big m Hbig) as (q' & -> & Hq' & _).
  cbv zeta in *.
  set (s := Z.log2 m - 52) in *.
  assert (53 <= Z.log2 m) as Hn by (apply Z.log2_le_pow2; lia).
  assert (1 <= s) as Hs by (subst s; lia).
  destruct (Z.eq_dec q' (2 ^ 53)) as [-> | Hne].
  - replace (2 ^ 53 * 2 ^ s) with (2 ^ 52 * 2 ^ (s + 1)).
    + apply round_magnitude_fixed; [| lia].
      split; [lia |]. apply Z.pow_lt_mono_r; lia.
    + rewrite (Z.pow_add_r 2 s 1) by lia.
      change (2 ^ 53) with (2 ^ 52 * 2 ^ 1). ring.
  - apply round_magnitude_fixed; lia.
Qed.

(** A rounded result is a number of the language. *)
Lemma round_idempotent k r : round k = Finite r -> round r = Finite r.
Proof.
  unfold round at 1.
  destruct (Z.leb_spec overflow_threshold (round_magnitude (Z.abs k)))
    as [Hover | Hfin].
  { destruct (k <? 0); discriminate. }
  intros [= <-].
  pose proof (round_magnitude_idempotent (Z.abs k) ltac:(lia)) as Hid.
  destruct (Z.lt_trichotomy k 0) as [Hk | [-> | Hk]].
  - pose proof (round_magnitude_pos (Z.abs k) ltac:(lia)) as Hpos.
    rewrite (Z.sgn_neg k Hk). unfold round.
    replace (Z.abs (-1 * round_magnitude (Z.abs k)))
      with (round_magnitude (Z.abs k)) by lia.
    rewrite Hid.
    destruct (Z.leb_spec overflow_threshold (round_magnitude (Z.abs k)));
      [lia |].
    rewrite Z.sgn_neg by lia. reflexivity.
  - reflexivity.
  - pose proof (round_magnitude_pos (Z.abs k) ltac:(lia)) as Hpos.
    rewrite (Z.sgn_pos k Hk). unfold round.
    replace (Z.abs (1 * round_magnitude (Z.abs k)))
      with (round_magnitude (Z.abs k)) by lia.
    rewrite Hid.
    destruct (Z.leb_spec overflow_threshold (round_magnitude (Z.abs k)));
      [lia |].
    rewrite Z.sgn_pos by lia. reflexivity.
Qed.






End Rounding.



(** The result of an addition, or of a subtraction, is a number of the
    language. *)
Lemma add_binary64 a b : Spec.binary64 (a + b).
Proof.
  destruct a as [ | | p | ], b as [ | | q | ]; simpl; try exact I.
  destruct (round (p + q)) as [ | | r | ] eqn:E; simpl; try exact I.
  eapply round_idempotent, E.
Qed.

Lemma sub_binary64 a b : Spec.binary64 (a - b).
Proof. apply add_binary64. Qed.

(** Adding [d] to [v] exactly and then taking [v] away gives [d]. *)
Lemma add_then_sub v d :
  Spec.binary64 d -> Spec.exact_sum v d -> (v + d) - v = d.
Proof.
  destruct v as [ | | p | ], d as [ | | q | ]; simpl; try tauto.
  intros Hd He. unfold sub. cbn [add]. rewrite He. cbn [neg add].
  replace (p + q + - p)%Z with q by lia. exact Hd.
Qed.




Lemma sub_nonneg_iff c a :
  isFinite c = true -> isFinite a = true ->
  Leq (of_Z 0) (c - a) <-> Leq a c.
Proof.
  intros Hc Ha.
  apply isFinite_inv in Hc as [p ->]. apply isFinite_inv in Ha as [q ->].
  unfold sub. cbn [neg add]. change (of_Z 0) with (Finite 0).
  rewrite round_nonneg. split; intros H.
  - constructor. lia.
  - inversion H; subst. lia.
Qed.

End NumberFacts.

(** ** Facts about one instance *)

Module BoundsFacts.

Import Bounds Spec NumberFacts.
Local Open Scope js_scope.

Lemma clear_empty this : clear this = empty.
Proof. reflexivity. Qed.

Lemma new_empty : new None = empty.
Proof. reflexivity. Qed.

Lemma empty_numeric : numeric empty.
Proof. repeat split. Qed.

(** [contains] decides membership in the closed rectangle. *)
Lemma contains_inside this p : contains this p = true <-> inside this p.
Proof.
  unfold contains, inside.
  rewrite !andb_true_iff, !ge_iff, !le_iff. tauto.
Qed.

Lemma includes_refl b : numeric b -> includes b b.
Proof.
  intros [[H1 H2] [H3 H4]]. repeat split; apply Leq_refl; assumption.
Qed.

Lemma includes_trans a b c : includes a b -> includes b c -> includes a c.
Proof.
  intros (H1 & H2 & H3 & H4) (K1 & K2 & K3 & K4).
  repeat split; eapply Leq_trans; eassumption.
Qed.

Lemma includes_inside outer inner p :
  includes outer inner -> inside inner p -> inside outer p.
Proof.
  intros (H1 & H2 & H3 & H4) (K1 & K2 & K3 & K4).
  repeat split; eapply Leq_trans; eassumption.
Qed.

Lemma includes_empty b : numeric b -> includes b empty.
Proof.
  intros [[H1 H2] [H3 H4]].
  repeat split; first [ apply Leq_top | apply Leq_bottom ]; assumption.
Qed.

Lemma inside_empty p : ~ inside empty p.
Proof.
  destruct p as [px py]. intros (H1 & H2 & _). simpl in *.
  inversion H1; subst; inversion H2.
Qed.

(** The scenario of the specification: [add] of [(1, 1)], [(-1, -1)],
    [(0, 5)] with [clear = true] gives [min = (-1, -1)], [max = (1, 5)]. *)
Example add_scenario :
  add Examples.scenario true Examples.unit_box
  = Bounds.mk (Point.mk (of_Z (-1)) (of_Z (-1)))
              (Point.mk (of_Z 1) (of_Z 5)).
Proof. reflexivity. Qed.

(** [shift((10, 10))] on the box of width 4 and height 6 at the origin
    gives [min = (10, 10)], [max = (14, 16)]. *)
Example shift_scenario :
  shift (Point.mk (of_Z 10) (of_Z 10))
        (setMinMax (of_Z 0) (of_Z 0) (of_Z 4) (of_Z 6) (new None))
  = Bounds.mk (Point.mk (of_Z 10) (of_Z 10))
              (Point.mk (of_Z 14) (of_Z 16)).
Proof. reflexivity. Qed.

(** The clone has the corners of the original. *)
Lemma clone_same_corners this : clone this = this.
Proof. destruct this as [[a b] [c d]]. reflexivity. Qed.

(** *** One axis of the loop body *)

Section Axis.

Variables v m : Number.

(** The value of [m] after [if (v > m) m = v] is
    [if v >? m then v else m], and after [if (v < m) m = v] it is
    [if v <? m then v else m]. *)

Lemma raised_numeric :
  isNaN m = false -> isNaN (if v >? m then v else m) = false.
Proof.
  intros Hm. destruct (v >? m) eqn:E; [| assumption].
  apply gt_iff in E. eapply Less_numeric_r; eassumption.
Qed.

Lemma lowered_numeric :
  isNaN m = false -> isNaN (if v <? m then v else m) = false.
Proof.
  intros Hm. destruct (v <? m) eqn:E; [| assumption].
  apply lt_iff in E. eapply Less_numeric_l; eassumption.
Qed.

Lemma raised_above_old : isNaN m = false -> Leq m (if v >? m then v else m).
Proof.
  intros Hm. destruct (v >? m) eqn:E.
  - apply Less_Leq, gt_iff, E.
  - apply Leq_refl, Hm.
Qed.

Lemma lowered_below_old : isNaN m = false -> Leq (if v <? m then v else m) m.
Proof.
  intros Hm. destruct (v <? m) eqn:E.
  - apply Less_Leq, lt_iff, E.
  - apply Leq_refl, Hm.
Qed.

Lemma raised_above_new :
  isNaN m = false -> isNaN v = false -> Leq v (if v >? m then v else m).
Proof.
  intros Hm Hv. destruct (v >? m) eqn:E.
  - apply Leq_refl, Hv.
  - apply gt_false_Leq; assumption.
Qed.

Lemma lowered_below_new :
  isNaN m = false -> isNaN v = false -> Leq (if v <? m then v else m) v.
Proof.
  intros Hm Hv. destruct (v <? m) eqn:E.
  - apply Leq_refl, Hv.
  - apply lt_false_Leq; assumption.
Qed.

Lemma raised_least hi :
  Leq m hi -> Leq v hi -> Leq (if v >? m then v else m) hi.
Proof. intros H1 H2. destruct (v >? m); assumption. Qed.

Lemma lowered_greatest lo :
  Leq lo m -> Leq lo v -> Leq lo (if v <? m then v else m).
Proof. intros H1 H2. destruct (v <? m); assumption. Qed.

End Axis.

(** *** The loop body *)

(** Runs the four conditional assignments on a state given by its four
    coordinates. *)
Ltac run_add_vertex v this :=
  destruct this as [[? ?] [? ?]], v as [? ?];
  cbv beta iota zeta delta
      [add_vertex set_min_x set_min_y set_max_x set_max_y
       min_x min_y max_x max_y min max Point.x Point.y];
  repeat match goal with
         | H : ?c = _ |- context [if ?c then _ else _] =>
             rewrite H; cbv beta iota
         | |- context [if (?a >? ?b) then _ else _] =>
             is_var a; is_var b; destruct (a >? b) eqn:?; cbv beta iota
         | |- context [if (?a <? ?b) then _ else _] =>
             is_var a; is_var b; destruct (a <? b) eqn:?; cbv beta iota
         end;
  reflexivity.

Lemma add_vertex_max_x v this :
  max_x (add_vertex v this)
  = if Point.x v >? max_x this then Point.x v else max_x this.
Proof. run_add_vertex v this. Qed.

Lemma add_vertex_min_x v this :
  min_x (add_vertex v this)
  = if Point.x v <? min_x this then Point.x v else min_x this.
Proof. run_add_vertex v this. Qed.

Lemma add_vertex_max_y v this :
  max_y (add_vertex v this)
  = if Point.y v >? max_y this then Point.y v else max_y this.
Proof. run_add_vertex v this. Qed.

Lemma add_vertex_min_y v this :
  min_y (add_vertex v this)
  = if Point.y v <? min_y this then Point.y v else min_y this.
Proof. run_add_vertex v this. Qed.

Lemma numeric_fields b :
  numeric b <->
  isNaN (min_x b) = false /\ isNaN (min_y b) = false
  /\ isNaN (max_x b) = false /\ isNaN (max_y b) = false.
Proof. unfold numeric, numeric_point, min_x, min_y, max_x, max_y. tauto. Qed.

Lemma add_vertex_numeric v this : numeric this -> numeric (add_vertex v this).
Proof.
  rewrite !numeric_fields. intros (H1 & H2 & H3 & H4).
  rewrite add_vertex_min_x, add_vertex_min_y, add_vertex_max_x,
    add_vertex_max_y.
  auto using raised_numeric, lowered_numeric.
Qed.

Lemma add_vertex_includes v this :
  numeric this -> includes (add_vertex v this) this.
Proof.
  rewrite numeric_fields. intros (H1 & H2 & H3 & H4). unfold includes.
  rewrite add_vertex_min_x, add_vertex_min_y, add_vertex_max_x,
    add_vertex_max_y.
  auto using raised_above_old, lowered_below_old.
Qed.

Lemma add_vertex_inside v this :
  numeric this -> numeric_point v -> inside (add_vertex v this) v.
Proof.
  rewrite numeric_fields. intros (H1 & H2 & H3 & H4) [Hx Hy]. unfold inside.
  rewrite add_vertex_min_x, add_vertex_min_y, add_vertex_max_x,
    add_vertex_max_y.
  auto using raised_above_new, lowered_below_new.
Qed.

Lemma add_vertex_least v this b :
  includes b this -> inside b v -> includes b (add_vertex v this).
Proof.
  intros (H1 & H2 & H3 & H4) (K1 & K2 & K3 & K4). unfold includes.
  rewrite add_vertex_min_x, add_vertex_min_y, add_vertex_max_x,
    add_vertex_max_y.
  auto using raised_least, lowered_greatest.
Qed.

(** *** The loop *)

Lemma add_loop_numeric V : forall this,
  numeric this -> numeric (add_loop V this).
Proof.
  induction V as [| v V IH]; intros this H; simpl; [assumption |].
  apply IH, add_vertex_numeric, H.
Qed.

Lemma add_loop_includes V : forall this,
  numeric this -> includes (add_loop V this) this.
Proof.
  induction V as [| v V IH]; intros this H; simpl.
  - apply includes_refl, H.
  - eapply includes_trans.
    + apply IH, add_vertex_numeric, H.
    + apply add_vertex_includes, H.
Qed.

(** Every vertex without NaN ends up inside, whatever the other vertices
    are. *)
Lemma add_loop_inside V : forall this p,
  numeric this -> In p V -> numeric_point p -> inside (add_loop V this) p.
Proof.
  induction V as [| v V IH]; intros this p H Hin Hp; simpl in *; [tauto |].
  destruct Hin as [-> | Hin].
  - eapply includes_inside.
    + apply add_loop_includes, add_vertex_numeric, H.
    + apply add_vertex_inside; assumption.
  - apply IH; [apply add_vertex_numeric, H | assumption | assumption].
Qed.

Lemma add_loop_least V : forall this b,
  includes b this -> Forall (inside b) V -> includes b (add_loop V this).
Proof.
  induction V as [| v V IH]; intros this b H HV; simpl; [assumption |].
  inversion HV; subst.
  apply IH; [apply add_vertex_least |]; assumption.
Qed.

(** [add] on numbers that are not NaN computes the least enclosing box. *)
Lemma add_smallest_enclosing this V (clear_flag : bool) :
  numeric (if clear_flag then empty else this) ->
  Forall numeric_point V ->
  smallest_enclosing (add V clear_flag this)
                     (if clear_flag then empty else this) V.
Proof.
  intros Hprev HV. unfold add.
  replace (if clear_flag then clear this else this)
    with (if clear_flag then empty else this)
    by (destruct clear_flag; reflexivity).
  set (prev := if clear_flag then empty else this) in *.
  split; [split |].
  - apply add_loop_includes, Hprev.
  - apply List.Forall_forall. intros p Hp.
    apply add_loop_inside; [assumption .. |].
    eapply List.Forall_forall in HV; eassumption.
  - intros b [Hb HbV]. apply add_loop_least; assumption.
Qed.

(** With a previous box that has a content, or none at all, enclosing the
    box and containing its points are the same. *)
Lemma ordered_corners prev :
  numeric prev -> ordered prev ->
  inside prev (min prev) /\ inside prev (max prev).
Proof.
  rewrite numeric_fields. intros (H1 & H2 & H3 & H4) [Hx Hy].
  unfold inside. fold (min_x prev) (min_y prev) (max_x prev) (max_y prev).
  repeat split; auto using Leq_refl.
Qed.

Lemma covers_encloses b prev V :
  numeric prev -> numeric b -> ordered prev \/ prev = empty ->
  covers b prev V -> encloses b prev V.
Proof.
  intros Hprev Hb Hshape Hcov. split.
  - destruct Hshape as [Hord | ->].
    + destruct (ordered_corners prev Hprev Hord) as [Hmin Hmax].
      destruct (Hcov _ (or_introl Hmin)) as (M1 & _ & M3 & _).
      destruct (Hcov _ (or_introl Hmax)) as (_ & N2 & _ & N4).
      repeat split; assumption.
    + apply includes_empty, Hb.
  - apply List.Forall_forall. intros p Hp. apply Hcov. right. assumption.
Qed.

Lemma encloses_covers b prev V : encloses b prev V -> covers b prev V.
Proof.
  intros [Hinc HV] p [Hp | Hp].
  - eapply includes_inside; eassumption.
  - eapply List.Forall_forall in HV; eassumption.
Qed.

Lemma smallest_enclosing_cover r prev V :
  numeric prev -> ordered prev \/ prev = empty ->
  smallest_enclosing r prev V -> smallest_cover r prev V.
Proof.
  intros Hprev Hshape [Henc Hleast]. split.
  - apply encloses_covers, Henc.
  - intros b Hb Hcov. apply Hleast, covers_encloses; assumption.
Qed.

(** *** Equality of states, field by field *)

Lemma bounds_ext a b :
  min_x a = min_x b -> min_y a = min_y b ->
  max_x a = max_x b -> max_y a = max_y b -> a = b.
Proof.
  destruct a as [[a1 a2] [a3 a4]], b as [[b1 b2] [b3 b4]].
  unfold min_x, min_y, max_x, max_y. simpl. congruence.
Qed.

Lemma ordered_numeric b : ordered b -> numeric b.
Proof.
  intros [Hx Hy]. apply numeric_fields.
  repeat split;
    first [ eapply Leq_numeric_l; eassumption
          | eapply Leq_numeric_r; eassumption ].
Qed.

Lemma inside_ordered b p : inside b p -> ordered b.
Proof.
  intros (H1 & H2 & H3 & H4). split; eapply Leq_trans; eassumption.
Qed.

Lemma includes_ordered outer inner :
  includes outer inner -> ordered inner -> ordered outer.
Proof.
  intros (H1 & H2 & H3 & H4) [Hx Hy]. split.
  - eapply Leq_trans; [exact H1 |]. eapply Leq_trans; eassumption.
  - eapply Leq_trans; [exact H3 |]. eapply Leq_trans; eassumption.
Qed.

(** *** Vertices that change nothing *)

Lemma absorbs_add_vertex_id b v : absorbs b v -> add_vertex v b = b.
Proof.
  intros (H1 & H2 & H3 & H4).
  apply bounds_ext;
    rewrite ?add_vertex_min_x, ?add_vertex_min_y, ?add_vertex_max_x,
      ?add_vertex_max_y, ?H1, ?H2, ?H3, ?H4; reflexivity.
Qed.

Lemma inside_absorbs b p : inside b p -> absorbs b p.
Proof.
  intros (H1 & H2 & H3 & H4).
  repeat split; auto using Leq_gt_false, Leq_lt_false.
Qed.

Section AxisAgain.

Variables v w m : Number.

Lemma raised_settles : (v >? (if v >? m then v else m)) = false.
Proof. destruct (v >? m) eqn:E; [apply gt_irrefl | exact E]. Qed.

Lemma lowered_settles : (v <? (if v <? m then v else m)) = false.
Proof. destruct (v <? m) eqn:E; [apply lt_irrefl | exact E]. Qed.

Lemma raised_stays_settled :
  (v >? m) = false -> (v >? (if w >? m then w else m)) = false.
Proof.
  intros H. destruct (w >? m) eqn:E; [| exact H].
  destruct (v >? w) eqn:F; [| reflexivity].
  apply gt_iff in E, F.
  pose proof (Less_trans _ _ _ E F) as G. apply gt_iff in G. congruence.
Qed.

Lemma lowered_stays_settled :
  (v <? m) = false -> (v <? (if w <? m then w else m)) = false.
Proof.
  intros H. destruct (w <? m) eqn:E; [| exact H].
  destruct (v <? w) eqn:F; [| reflexivity].
  apply lt_iff in E, F.
  pose proof (Less_trans _ _ _ F E) as G. apply lt_iff in G. congruence.
Qed.

(** Two successive raisings, or lowerings, give the same value in either
    order. *)
Lemma raised_comm :
  (if v >? (if w >? m then w else m) then v else (if w >? m then w else m))
  = (if w >? (if v >? m then v else m) then w else (if v >? m then v else m)).
Proof.
  destruct (isNaN m) eqn:Hm.
  { repeat rewrite (gt_NaN_false _ m) by tauto. reflexivity. }
  destruct (isNaN v) eqn:Hv.
  { repeat rewrite (gt_NaN_false v) by tauto. reflexivity. }
  destruct (isNaN w) eqn:Hw.
  { repeat rewrite (gt_NaN_false w) by tauto. reflexivity. }
  pose proof (raised_numeric w m Hm) as Hwm.
  pose proof (raised_numeric v m Hm) as Hvm.
  apply Leq_antisym.
  - apply raised_least; [apply raised_least |].
    + exact (Leq_trans _ _ _ (raised_above_old v m Hm)
               (raised_above_old w _ Hvm)).
    + exact (raised_above_new w _ Hvm Hw).
    + exact (Leq_trans _ _ _ (raised_above_new v m Hm Hv)
               (raised_above_old w _ Hvm)).
  - apply raised_least; [apply raised_least |].
    + exact (Leq_trans _ _ _ (raised_above_old w m Hm)
               (raised_above_old v _ Hwm)).
    + exact (raised_above_new v _ Hwm Hv).
    + exact (Leq_trans _ _ _ (raised_above_new w m Hm Hw)
               (raised_above_old v _ Hwm)).
Qed.

Lemma lowered_comm :
  (if v <? (if w <? m then w else m) then v else (if w <? m then w else m))
  = (if w <? (if v <? m then v else m) then w else (if v <? m then v else m)).
Proof.
  destruct (isNaN m) eqn:Hm.
  { repeat rewrite (lt_NaN_false _ m) by tauto. reflexivity. }
  destruct (isNaN v) eqn:Hv.
  { repeat rewrite (lt_NaN_false v) by tauto. reflexivity. }
  destruct (isNaN w) eqn:Hw.
  { repeat rewrite (lt_NaN_false w) by tauto. reflexivity. }
  pose proof (lowered_numeric w m Hm) as Hwm.
  pose proof (lowered_numeric v m Hm) as Hvm.
  apply Leq_antisym.
  - apply lowered_greatest; [apply lowered_greatest |].
    + exact (Leq_trans _ _ _ (lowered_below_old v _ Hwm)
               (lowered_below_old w m Hm)).
    + exact (lowered_below_new v _ Hwm Hv).
    + exact (Leq_trans _ _ _ (lowered_below_old v _ Hwm)
               (lowered_below_new w m Hm Hw)).
  - apply lowered_greatest; [apply lowered_greatest |].
    + exact (Leq_trans _ _ _ (lowered_below_old w _ Hvm)
               (lowered_below_old v m Hm)).
    + exact (lowered_below_new w _ Hvm Hw).
    + exact (Leq_trans _ _ _ (lowered_below_old w _ Hvm)
               (lowered_below_new v m Hm Hv)).
Qed.

End AxisAgain.

(** *** Vertices already taken into account *)

Lemma add_vertex_absorbs_self v s : absorbs (add_vertex v s) v.
Proof.
  unfold absorbs.
  rewrite add_vertex_min_x, add_vertex_min_y, add_vertex_max_x,
    add_vertex_max_y.
  auto using raised_settles, lowered_settles.
Qed.

Lemma absorbs_add_vertex v w s : absorbs s v -> absorbs (add_vertex w s) v.
Proof.
  intros (H1 & H2 & H3 & H4). unfold absorbs.
  rewrite add_vertex_min_x, add_vertex_min_y, add_vertex_max_x,
    add_vertex_max_y.
  auto using raised_stays_settled, lowered_stays_settled.
Qed.

Lemma add_loop_keeps_absorbs V : forall s v,
  absorbs s v -> absorbs (add_loop V s) v.
Proof.
  induction V as [| w V IH]; intros s v H; simpl; [assumption |].
  apply IH, absorbs_add_vertex, H.
Qed.

Lemma add_loop_absorbs V : forall s v, In v V -> absorbs (add_loop V s) v.
Proof.
  induction V as [| w V IH]; intros s v Hin; simpl in *; [tauto |].
  destruct Hin as [-> | Hin].
  - apply add_loop_keeps_absorbs, add_vertex_absorbs_self.
  - apply IH, Hin.
Qed.

Lemma add_loop_id V : forall s, Forall (absorbs s) V -> add_loop V s = s.
Proof.
  induction V as [| w V IH]; intros s H; simpl; [reflexivity |].
  inversion H as [| ? ? Hw HV]; subst.
  rewrite (absorbs_add_vertex_id s w Hw). apply IH, HV.
Qed.

(** *** Order of the vertices *)

Lemma add_vertex_comm v w s :
  add_vertex v (add_vertex w s) = add_vertex w (add_vertex v s).
Proof.
  apply bounds_ext;
    rewrite ?add_vertex_min_x, ?add_vertex_min_y, ?add_vertex_max_x,
      ?add_vertex_max_y;
    auto using raised_comm, lowered_comm.
Qed.

Lemma add_loop_app V W s : add_loop (V ++ W) s = add_loop W (add_loop V s).
Proof.
  revert s. induction V as [| v V IH]; intros s; simpl; [reflexivity |].
  apply IH.
Qed.

Lemma add_loop_permutation V W :
  Permutation V W -> forall s, add_loop V s = add_loop W s.
Proof.
  induction 1 as [| v V W _ IH | v w V | V W U _ IH1 _ IH2]; intros s; simpl.
  - reflexivity.
  - apply IH.
  - rewrite add_vertex_comm. reflexivity.
  - rewrite IH1. apply IH2.
Qed.

(** *** Fields after a translation *)


(** Raising to [u] and then to some [v] above [u] is raising to [v]. *)
Lemma raised_twice u v m :
  Leq u v -> isNaN m = false ->
  (if v >? (if u >? m then u else m) then v else (if u >? m then u else m))
  = (if v >? m then v else m).
Proof.
  intros Huv Hm.
  pose proof (Leq_numeric_l _ _ Huv) as Hu.
  pose proof (Leq_numeric_r _ _ Huv) as Hv.
  pose proof (raised_numeric u m Hm) as Hum.
  apply Leq_antisym.
  - apply raised_least; [apply raised_least |].
    + exact (raised_above_old v m Hm).
    + exact (Leq_trans _ _ _ Huv (raised_above_new v m Hm Hv)).
    + exact (raised_above_new v m Hm Hv).
  - apply raised_least.
    + exact (Leq_trans _ _ _ (raised_above_old u m Hm)
               (raised_above_old v _ Hum)).
    + exact (raised_above_new v _ Hum Hv).
Qed.

End BoundsFacts.

(** ** Facts about instances held by reference *)

Module HeapFacts.

Import Bounds Spec NumberFacts Heap.
Local Open Scope js_scope.

(** Each statement of [addBounds] rewrites the receiver alone, from the
    states [t] of the receiver and [b] of the argument at that time. *)
Section Statement.

Variables (this bounds : nat) (σ : gmap nat Bounds.t) (t b : Bounds.t).
Hypothesis at_this : σ !! this = Some t.
Hypothesis at_bounds : σ !! bounds = Some b.

Lemma addBounds_max_x_at :
  addBounds_max_x this bounds σ
  = Some (<[this := if max_x b >? max_x t
                    then set_max_x (max_x b) t else t]> σ).
Proof.
  unfold addBounds_max_x. rewrite at_this, at_bounds. cbn.
  destruct (max_x b >? max_x t); [reflexivity |].
  rewrite insert_id; [reflexivity | assumption].
Qed.

Lemma addBounds_min_x_at :
  addBounds_min_x this bounds σ
  = Some (<[this := if min_x b <? min_x t
                    then set_min_x (min_x b) t else t]> σ).
Proof.
  unfold addBounds_min_x. rewrite at_this, at_bounds. cbn.
  destruct (min_x b <? min_x t); [reflexivity |].
  rewrite insert_id; [reflexivity | assumption].
Qed.

Lemma addBounds_max_y_at :
  addBounds_max_y this bounds σ
  = Some (<[this := if max_y b >? max_y t
                    then set_max_y (max_y b) t else t]> σ).
Proof.
  unfold addBounds_max_y. rewrite at_this, at_bounds. cbn.
  destruct (max_y b >? max_y t); [reflexivity |].
  rewrite insert_id; [reflexivity | assumption].
Qed.

Lemma addBounds_min_y_at :
  addBounds_min_y this bounds σ
  = Some (<[this := if min_y b <? min_y t
                    then set_min_y (max_y b) t else t]> σ).
Proof.
  unfold addBounds_min_y. rewrite at_this, at_bounds. cbn.
  destruct (min_y b <? min_y t); [reflexivity |].
  rewrite insert_id; [reflexivity | assumption].
Qed.

End Statement.

(** The statements never fail on live references, and keep them live. *)
Lemma insert_live (σ : gmap nat Bounds.t) this r x :
  is_Some (σ !! r) -> is_Some (<[this := x]> σ !! r).
Proof.
  intros H. destruct (decide (this = r)) as [-> | Hne].
  - rewrite lookup_insert_eq. eauto.
  - rewrite lookup_insert_ne; assumption.
Qed.

Lemma addBounds_clear_live this bounds clear_flag σ :
  live this bounds σ ->
  exists σ', addBounds_clear this clear_flag σ = Some σ' /\ live this bounds σ'.
Proof.
  intros [[t Ht] Hb]. unfold addBounds_clear, call.
  destruct clear_flag.
  - rewrite Ht. cbn [mbind option_bind]. eexists. split; [reflexivity |].
    split; apply insert_live; eauto.
  - eexists. split; [reflexivity |]. split; eauto.
Qed.

Lemma addBounds_max_x_live this bounds σ :
  live this bounds σ ->
  exists σ', addBounds_max_x this bounds σ = Some σ' /\ live this bounds σ'.
Proof.
  intros [[t Ht] [b Hb]]. rewrite (addBounds_max_x_at _ _ _ t b Ht Hb).
  eexists. split; [reflexivity |]. split; apply insert_live; eauto.
Qed.

Lemma addBounds_min_x_live this bounds σ :
  live this bounds σ ->
  exists σ', addBounds_min_x this bounds σ = Some σ' /\ live this bounds σ'.
Proof.
  intros [[t Ht] [b Hb]]. rewrite (addBounds_min_x_at _ _ _ t b Ht Hb).
  eexists. split; [reflexivity |]. split; apply insert_live; eauto.
Qed.

Lemma addBounds_max_y_live this bounds σ :
  live this bounds σ ->
  exists σ', addBounds_max_y this bounds σ = Some σ' /\ live this bounds σ'.
Proof.
  intros [[t Ht] [b Hb]]. rewrite (addBounds_max_y_at _ _ _ t b Ht Hb).
  eexists. split; [reflexivity |]. split; apply insert_live; eauto.
Qed.

(** Every finite number is above [-Infinity] and below [+Infinity]. *)
Lemma finite_gt_NegInfinity a :
  isFinite a = true -> (a >? NegInfinity) = true.
Proof. destruct a; intros H; try discriminate H; reflexivity. Qed.

Lemma finite_lt_Infinity a : isFinite a = true -> (a <? Infinity) = true.
Proof. destruct a; intros H; try discriminate H; reflexivity. Qed.

(** A clearing [addBounds] from another instance with finite corners. *)
Lemma addBounds_clear_distinct this bounds (σ : gmap nat Bounds.t) t b :
  this ≠ bounds -> σ !! this = Some t -> σ !! bounds = Some b ->
  finite_bounds b ->
  addBounds this bounds true σ
  = Some (<[this := Bounds.mk (Point.mk (min_x b) (max_y b))
                              (Point.mk (max_x b) (max_y b))]> σ).
Proof.
  intros Hne Ht Hb [[Fminx Fminy] [Fmaxx Fmaxy]].
  change (isFinite (min_x b) = true) in Fminx.
  change (isFinite (min_y b) = true) in Fminy.
  change (isFinite (max_x b) = true) in Fmaxx.
  change (isFinite (max_y b) = true) in Fmaxy.
  unfold addBounds, addBounds_clear, call. rewrite Ht.
  cbn [mbind option_bind].
  erewrite (addBounds_max_x_at this bounds _ _ b);
    [| apply lookup_insert_eq | rewrite lookup_insert_ne; assumption ].
  change (max_x (clear t)) with NegInfinity.
  rewrite (finite_gt_NegInfinity _ Fmaxx).
  cbn [mbind option_bind]. rewrite insert_insert_eq.
  erewrite (addBounds_min_x_at this bounds _ _ b);
    [| apply lookup_insert_eq | rewrite lookup_insert_ne; assumption ].
  change (min_x (set_max_x (max_x b) (clear t))) with Infinity.
  rewrite (finite_lt_Infinity _ Fminx).
  cbn [mbind option_bind]. rewrite insert_insert_eq.
  erewrite (addBounds_max_y_at this bounds _ _ b);
    [| apply lookup_insert_eq | rewrite lookup_insert_ne; assumption ].
  change (max_y (set_min_x (min_x b) (set_max_x (max_x b) (clear t))))
    with NegInfinity.
  rewrite (finite_gt_NegInfinity _ Fmaxy).
  cbn [mbind option_bind]. rewrite insert_insert_eq.
  erewrite (addBounds_min_y_at this bounds _ _ b);
    [| apply lookup_insert_eq | rewrite lookup_insert_ne; assumption ].
  change (min_y (set_max_y (max_y b)
                   (set_min_x (min_x b) (set_max_x (max_x b) (clear t)))))
    with Infinity.
  rewrite (finite_lt_Infinity _ Fminy).
  rewrite insert_insert_eq. reflexivity.
Qed.

(** *** The receiver alone is rewritten *)

(** Looks the argument up in a heap whose receiver was just rewritten. *)
Lemma lookup_after_write (σ : gmap nat Bounds.t) this bounds x :
  is_Some (σ !! bounds) -> is_Some (<[this := x]> σ !! bounds).
Proof. apply insert_live. Qed.

Ltac statement_shape lemma :=
  match goal with
  | Hb : is_Some (?σ !! ?bounds) |- context [<[?this := ?x]> ?σ] =>
      destruct (lookup_after_write σ this bounds x Hb) as [b' Hb'];
      rewrite (lemma this bounds (<[this := x]> σ) x b'
                 (lookup_insert_eq _ _ _) Hb');
      rewrite insert_insert_eq; eexists; reflexivity
  end.

Lemma addBounds_max_x_shape this bounds (σ : gmap nat Bounds.t) x :
  is_Some (σ !! bounds) ->
  exists x', addBounds_max_x this bounds (<[this := x]> σ)
             = Some (<[this := x']> σ).
Proof. intros Hb. statement_shape addBounds_max_x_at. Qed.

Lemma addBounds_min_x_shape this bounds (σ : gmap nat Bounds.t) x :
  is_Some (σ !! bounds) ->
  exists x', addBounds_min_x this bounds (<[this := x]> σ)
             = Some (<[this := x']> σ).
Proof. intros Hb. statement_shape addBounds_min_x_at. Qed.

Lemma addBounds_max_y_shape this bounds (σ : gmap nat Bounds.t) x :
  is_Some (σ !! bounds) ->
  exists x', addBounds_max_y this bounds (<[this := x]> σ)
             = Some (<[this := x']> σ).
Proof. intros Hb. statement_shape addBounds_max_y_at. Qed.

Lemma addBounds_min_y_shape this bounds (σ : gmap nat Bounds.t) x :
  is_Some (σ !! bounds) ->
  exists x', addBounds_min_y this bounds (<[this := x]> σ)
             = Some (<[this := x']> σ).
Proof. intros Hb. statement_shape addBounds_min_y_at. Qed.

Lemma addBounds_rewrites_receiver this bounds clear_flag σ :
  live this bounds σ ->
  exists r, addBounds this bounds clear_flag σ = Some (<[this := r]> σ).
Proof.
  intros [[t Ht] Hb]. unfold addBounds.
  assert (exists x, addBounds_clear this clear_flag σ
                    = Some (<[this := x]> σ)) as [x0 ->].
  { unfold addBounds_clear, call. destruct clear_flag.
    - rewrite Ht. eexists. reflexivity.
    - exists t. rewrite insert_id; [reflexivity | assumption]. }
  cbn [mbind option_bind].
  destruct (addBounds_max_x_shape this bounds σ x0 Hb) as [x1 ->].
  cbn [mbind option_bind].
  destruct (addBounds_min_x_shape this bounds σ x1 Hb) as [x2 ->].
  cbn [mbind option_bind].
  destruct (addBounds_max_y_shape this bounds σ x2 Hb) as [x3 ->].
  cbn [mbind option_bind].
  apply addBounds_min_y_shape, Hb.
Qed.

(** *** An instance merged with itself *)

Lemma addBounds_self this (σ : gmap nat Bounds.t) t :
  σ !! this = Some t -> addBounds this this false σ = Some σ.
Proof.
  intros Ht. unfold addBounds, addBounds_clear.
  cbn [mbind option_bind].
  rewrite (addBounds_max_x_at this this σ t t Ht Ht), gt_irrefl.
  rewrite (insert_id σ this t Ht). cbn [mbind option_bind].
  rewrite (addBounds_min_x_at this this σ t t Ht Ht), lt_irrefl.
  rewrite (insert_id σ this t Ht). cbn [mbind option_bind].
  rewrite (addBounds_max_y_at this this σ t t Ht Ht), gt_irrefl.
  rewrite (insert_id σ this t Ht). cbn [mbind option_bind].
  rewrite (addBounds_min_y_at this this σ t t Ht Ht), lt_irrefl.
  rewrite (insert_id σ this t Ht). reflexivity.
Qed.

(** *** Two distinct instances, without clear *)

Lemma addBounds_distinct this bounds (σ : gmap nat Bounds.t) t b :
  this <> bounds -> σ !! this = Some t -> σ !! bounds = Some b ->
  addBounds this bounds false σ
  = Some (<[this := merged b t]> σ).
Proof.
  intros Hne Ht Hb. unfold addBounds, addBounds_clear, merged.
  cbn [mbind option_bind].
  rewrite (addBounds_max_x_at this bounds σ t b Ht Hb).
  cbn [mbind option_bind].
  erewrite (addBounds_min_x_at this bounds _ _ b);
    [| apply lookup_insert_eq | rewrite lookup_insert_ne; assumption ].
  cbn [mbind option_bind]. rewrite insert_insert_eq.
  erewrite (addBounds_max_y_at this bounds _ _ b);
    [| apply lookup_insert_eq | rewrite lookup_insert_ne; assumption ].
  cbn [mbind option_bind]. rewrite insert_insert_eq.
  erewrite (addBounds_min_y_at this bounds _ _ b);
    [| apply lookup_insert_eq | rewrite lookup_insert_ne; assumption ].
  rewrite insert_insert_eq. reflexivity.
Qed.

Ltac run_merged b t :=
  destruct t as [[? ?] [? ?]], b as [[? ?] [? ?]];
  cbv beta iota zeta delta
      [merged set_min_x set_min_y set_max_x set_max_y
       min_x min_y max_x max_y min max Point.x Point.y];
  repeat match goal with
         | H : ?c = _ |- context [if ?c then _ else _] =>
             rewrite H; cbv beta iota
         | |- context [if (?a >? ?b) then _ else _] =>
             is_var a; is_var b; destruct (a >? b) eqn:?; cbv beta iota
         | |- context [if (?a <? ?b) then _ else _] =>
             is_var a; is_var b; destruct (a <? b) eqn:?; cbv beta iota
         end;
  reflexivity.

Lemma merged_max_x b t :
  max_x (merged b t) = if max_x b >? max_x t then max_x b else max_x t.
Proof. run_merged b t. Qed.

Lemma merged_min_x b t :
  min_x (merged b t) = if min_x b <? min_x t then min_x b else min_x t.
Proof. run_merged b t. Qed.

Lemma merged_max_y b t :
  max_y (merged b t) = if max_y b >? max_y t then max_y b else max_y t.
Proof. run_merged b t. Qed.

Lemma merged_min_y b t :
  min_y (merged b t) = if min_y b <? min_y t then max_y b else min_y t.
Proof. run_merged b t. Qed.

(** When the [min.y] test does not succeed and the argument has
    [min <= max], the merge is the addition of its two corners. *)
Lemma merged_is_add_corners b t :
  numeric t -> ordered b -> Leq (min_y t) (min_y b) ->
  merged b t = add [min b; max b] false t.
Proof.
  intros Hnt [Hbx Hby] Hy.
  apply BoundsFacts.numeric_fields in Hnt as (T1 & T2 & T3 & T4).
  unfold add. cbn [add_loop].
  apply BoundsFacts.bounds_ext;
    rewrite ?merged_max_x, ?merged_min_x, ?merged_max_y, ?merged_min_y,
      ?BoundsFacts.add_vertex_min_x, ?BoundsFacts.add_vertex_min_y,
      ?BoundsFacts.add_vertex_max_x, ?BoundsFacts.add_vertex_max_y;
    fold (min_x b) (min_y b) (max_x b) (max_y b).
  - symmetry. rewrite (Leq_lt_false (if min_x b <? min_x t
                                     then min_x b else min_x t) (max_x b));
      [reflexivity |].
    eapply Leq_trans; [| exact Hbx].
    apply BoundsFacts.lowered_below_new;
      [assumption | eapply Leq_numeric_l; eassumption].
  - rewrite (Leq_lt_false _ _ Hy).
    rewrite (Leq_lt_false (min_y t) (max_y b)); [reflexivity |].
    eapply Leq_trans; eassumption.
  - symmetry. apply BoundsFacts.raised_twice; assumption.
  - symmetry. apply BoundsFacts.raised_twice; assumption.
Qed.

End HeapFacts.

(** ** The properties of the specification *)

Import Bounds Spec Heap Examples.
Local Open Scope js_scope.

(** C1. For every receiver and argument of [addBounds] that are instances
    of the heap, the call runs through its statements, and if
    [bounds.min.y < this.min.y] holds when the last one is reached, it
    assigns [this.min.y = bounds.max.y]: the test reads [bounds.min.y], the
    assignment reads [bounds.max.y].  On the x axis, if
    [bounds.min.x < this.min.x] holds when the second statement is reached,
    that statement assigns [this.min.x = bounds.min.x].  The heaps [σ0] to
    [σ3] are those reached after the optional clear and after each of the
    first three statements. *)
Theorem addBounds_min_y_assigned_from_max_y
    this bounds clear_flag (σ : gmap nat Bounds.t) :
  live this bounds σ ->
  exists σ0 σ1 σ2 σ3,
    addBounds_clear this clear_flag σ = Some σ0
    /\ addBounds_max_x this bounds σ0 = Some σ1
    /\ addBounds_min_x this bounds σ1 = Some σ2
    /\ addBounds_max_y this bounds σ2 = Some σ3
    /\ (forall t b,
          σ3 !! this = Some t -> σ3 !! bounds = Some b ->
          (min_y b <? min_y t) = true ->
          addBounds this bounds clear_flag σ
          = Some (<[this := set_min_y (max_y b) t]> σ3))
    /\ (forall t b,
          σ1 !! this = Some t -> σ1 !! bounds = Some b ->
          (min_x b <? min_x t) = true ->
          σ2 = <[this := set_min_x (min_x b) t]> σ1).
Proof.
  intros Hlive.
  destruct (HeapFacts.addBounds_clear_live _ _ clear_flag _ Hlive)
    as (σ0 & H0 & Hlive0).
  destruct (HeapFacts.addBounds_max_x_live _ _ _ Hlive0) as (σ1 & H1 & Hlive1).
  destruct (HeapFacts.addBounds_min_x_live _ _ _ Hlive1) as (σ2 & H2 & Hlive2).
  destruct (HeapFacts.addBounds_max_y_live _ _ _ Hlive2) as (σ3 & H3 & _).
  exists σ0, σ1, σ2, σ3. repeat (split; [assumption |]).
  split; intros t b Ht Hb Hlt.
  - unfold addBounds.
    rewrite H0; cbn [mbind option_bind].
    rewrite H1; cbn [mbind option_bind].
    rewrite H2; cbn [mbind option_bind].
    rewrite H3; cbn [mbind option_bind].
    rewrite (HeapFacts.addBounds_min_y_at this bounds σ3 t b Ht Hb), Hlt.
    reflexivity.
  - rewrite (HeapFacts.addBounds_min_x_at this bounds σ1 t b Ht Hb), Hlt in H2.
    congruence.
Qed.

(** C1, on the heap [two_boxes]: receiver [(0,0)-(10,10)], argument
    [(-5,-5)-(5,5)].  The receiver ends with [min = (-5, 5)]. *)
Lemma addBounds_min_y_assigned_from_max_y_witness :
  addBounds 0 1 false two_boxes
  = Some (<[0 := set_min_y (of_Z 5) (set_min_x (of_Z (-5)) big_box)]>
            (<[0 := set_min_x (of_Z (-5)) big_box]> two_boxes)).
Proof.
  destruct (addBounds_min_y_assigned_from_max_y 0 1 false two_boxes)
    as (σ0 & σ1 & σ2 & σ3 & H0 & H1 & H2 & H3 & Hy & _).
  - split; eexists; reflexivity.
  - injection H0 as <-.
    change (Some two_boxes = Some σ1) in H1. injection H1 as <-.
    change (Some (<[0 := set_min_x (of_Z (-5)) big_box]> two_boxes) = Some σ2)
      in H2.
    injection H2 as <-.
    change (Some (<[0 := set_min_x (of_Z (-5)) big_box]> two_boxes) = Some σ3)
      in H3.
    injection H3 as <-.
    apply (Hy (set_min_x (of_Z (-5)) big_box) centred_box); reflexivity.
Defined.

(** C2 (amended). Let [prev] be the box before the vertices are added: the
    receiver, or the empty state when [clear] is true.  With an empty
    vertex list, [add] leaves [prev]: the state is unchanged when [clear]
    is false and is the infinite sentinel when [clear] is true.  When no
    coordinate of [prev] or of the vertices is NaN, the result is the least
    box, for the inclusion of extents, that includes [prev] and contains
    every vertex; and when moreover [prev] has [min <= max] on both axes or
    is the empty state, the result is the smallest box containing the
    union of the content of [prev] and of the vertices. *)
Theorem add_smallest_box this V (clear_flag : bool) :
  let prev := if clear_flag then empty else this in
  (V = [] -> add V clear_flag this = prev)
  /\ (numeric prev -> Forall numeric_point V ->
      smallest_enclosing (add V clear_flag this) prev V
      /\ (ordered prev \/ prev = empty ->
          smallest_cover (add V clear_flag this) prev V)).
Proof.
  intros prev. split.
  - intros ->. subst prev. destruct clear_flag; reflexivity.
  - intros Hprev HV.
    pose proof (BoundsFacts.add_smallest_enclosing this V clear_flag Hprev HV)
      as Hsmall.
    split; [exact Hsmall |].
    intros Hshape.
    apply BoundsFacts.smallest_enclosing_cover; assumption.
Qed.

(** C2, on the unit square extended by the vertex [(10, 0)]. *)
Lemma add_smallest_box_witness :
  smallest_cover (add [far_point] false unit_box) unit_box [far_point].
Proof.
  destruct (add_smallest_box unit_box [far_point] false) as [_ H].
  apply H.
  - repeat split.
  - repeat constructor.
  - left. split; apply NumberFacts.le_iff; reflexivity.
Defined.

(** C2 as stated fails in two ways.  A vertex with a NaN coordinate is
    contained in no box, so after [add([{x: NaN, y: 0}], true)] the bounds
    does not contain the vertices.  And from the state
    [min = (5, 0)], [max = (3, 0)], which contains no point,
    [add([{x: 10, y: 0}])] gives [min = (5, 0)], [max = (10, 0)], while
    the box [[10, 10] x [0, 0]] already contains the vertex. *)
Lemma add_smallest_box_counterexample :
  ~ smallest_cover (add [nan_point] true unit_box) empty [nan_point]
  /\ ~ smallest_cover (add [far_point] false crossed_box)
         crossed_box [far_point].
Proof.
  split.
  - intros [Hcov _].
    destruct (Hcov nan_point (or_intror (or_introl eq_refl))) as (H & _).
    apply NumberFacts.Leq_numeric_r in H. discriminate H.
  - intros [_ Hleast].
    assert (numeric dot_box) as Hnum by (repeat split).
    assert (covers dot_box crossed_box [far_point]) as Hcov.
    { intros p [(H1 & H2 & _) | [<- | []]].
      - pose proof (NumberFacts.Leq_trans _ _ _ H1 H2) as H.
        apply NumberFacts.le_iff in H. discriminate H.
      - repeat split; apply NumberFacts.le_iff; reflexivity. }
    destruct (Hleast dot_box Hnum Hcov) as (H & _).
    apply NumberFacts.le_iff in H. discriminate H.
Qed.

(** C3 (amended). For every vertex list [V] and every point [p] of [V]
    neither of whose coordinates is NaN, [new Bounds()], [update(V)] and
    then [contains(p)] returns true. *)
Theorem update_contains_vertices V p :
  In p V -> numeric_point p -> contains (update V (new None)) p = true.
Proof.
  intros Hin Hp. apply BoundsFacts.contains_inside.
  unfold update, add. rewrite BoundsFacts.new_empty, BoundsFacts.clear_empty.
  apply BoundsFacts.add_loop_inside;
    [apply BoundsFacts.empty_numeric | assumption | assumption].
Qed.

(** C3, on the scenario [(1, 1)], [(-1, -1)], [(0, 5)] and its last
    vertex. *)
Lemma update_contains_vertices_witness :
  contains (update scenario (new None)) (Point.mk (of_Z 0) (of_Z 5)) = true.
Proof.
  apply (update_contains_vertices scenario (Point.mk (of_Z 0) (of_Z 5))).
  - right. right. left. reflexivity.
  - split; reflexivity.
Defined.

(** C3 as stated fails on a vertex whose [x] is NaN: every comparison with
    it is false, so the bounds stays empty on that axis and [contains]
    returns false. *)
Lemma update_contains_vertices_counterexample :
  In nan_point [nan_point]
  /\ contains (update [nan_point] (new None)) nan_point = false.
Proof. split; [left |]; reflexivity. Qed.

(** C4. [overlaps] is symmetric. *)
Theorem overlaps_symmetric a b : overlaps a b = overlaps b a.
Proof.
  unfold overlaps. rewrite !NumberFacts.ge_le.
  destruct (min_x a <=? max_x b), (min_x b <=? max_x a),
    (min_y b <=? max_y a), (min_y a <=? max_y b); reflexivity.
Qed.

(** C5. [contains(p)] is true exactly when [min.x <= p.x <= max.x] and
    [min.y <= p.y <= max.y], the bounds of the intervals included. *)
Theorem contains_closed_intervals this p :
  contains this p = true
  <-> (Leq (min_x this) (Point.x p) /\ Leq (Point.x p) (max_x this))
      /\ (Leq (min_y this) (Point.y p) /\ Leq (Point.y p) (max_y this)).
Proof.
  rewrite BoundsFacts.contains_inside. unfold inside. tauto.
Qed.

(** C6. After [clear()], [contains(p)] is false for every point [p] with
    finite coordinates. *)
Theorem clear_contains_no_finite_point this p :
  finite_point p -> contains (clear this) p = false.
Proof.
  intros [Hx _]. unfold contains.
  change (min_x (clear this)) with Infinity.
  destruct (Point.x p); try discriminate Hx. reflexivity.
Qed.

(** C6, on the unit square and the origin. *)
Lemma clear_contains_no_finite_point_witness :
  contains (clear unit_box) origin = false.
Proof.
  apply (clear_contains_no_finite_point unit_box origin).
  split; reflexivity.
Defined.




(** C8. Setting [width] to [v] leaves [min] unchanged, sets
    [max.x = min.x + v] and leaves [max.y] unchanged; setting [height] to
    [v] leaves [min] unchanged, sets [max.y = min.y + v] and leaves [max.x]
    unchanged.  With [min = (0, 0)], [max = (2, 2)], setting [width = 5]
    gives [max.x = 5] and [min.x = 0]. *)
Theorem set_width_height_move_max_only this v :
  (min (set_width v this) = min this
   /\ max_x (set_width v this) = min_x this + v
   /\ max_y (set_width v this) = max_y this)
  /\ (min (set_height v this) = min this
      /\ max_y (set_height v this) = min_y this + v
      /\ max_x (set_height v this) = max_x this)
  /\ (max_x (set_width (of_Z 5) square2) = of_Z 5
      /\ min_x (set_width (of_Z 5) square2) = of_Z 0).
Proof. repeat split. Qed.

(** C9 (amended). For every bounds [b] with four finite corner coordinates
    and every receiver other than [b] itself, [addBounds(b, true)] leaves
    the receiver with [min = (b.min.x, b.max.y)] and
    [max = (b.max.x, b.max.y)]: zero height, at [b.max.y]. *)
Theorem addBounds_clear_collapses_height
    this bounds (σ : gmap nat Bounds.t) t b :
  this <> bounds ->
  σ !! this = Some t -> σ !! bounds = Some b ->
  finite_bounds b ->
  addBounds this bounds true σ
  = Some (<[this := Bounds.mk (Point.mk (min_x b) (max_y b))
                              (Point.mk (max_x b) (max_y b))]> σ).
Proof. apply HeapFacts.addBounds_clear_distinct. Qed.

(** C9, on the heap [two_boxes]: the receiver ends with [min = (-5, 5)],
    [max = (5, 5)]. *)
Lemma addBounds_clear_collapses_height_witness :
  addBounds 0 1 true two_boxes
  = Some (<[0 := Bounds.mk (Point.mk (of_Z (-5)) (of_Z 5))
                           (Point.mk (of_Z 5) (of_Z 5))]> two_boxes).
Proof.
  apply (addBounds_clear_collapses_height 0 1 two_boxes big_box centred_box).
  - discriminate.
  - reflexivity.
  - reflexivity.
  - repeat split.
Defined.

(** C9 as stated fails when the receiver is [b] itself: the clear empties
    [b] before it is read, no comparison succeeds, and the instance is
    left in the empty state. *)
Lemma addBounds_clear_collapses_height_counterexample :
  finite_bounds unit_box
  /\ one_box !! 0 = Some unit_box
  /\ addBounds 0 0 true one_box = Some (<[0 := empty]> one_box)
  /\ empty <> Bounds.mk (Point.mk (min_x unit_box) (max_y unit_box))
                        (Point.mk (max_x unit_box) (max_y unit_box)).
Proof.
  split; [repeat split |]. split; [reflexivity |]. split; [reflexivity |].
  discriminate.
Qed.

(** C10. The empty state overlaps no bounds with four finite corner
    coordinates, whichever of the two is the receiver. *)
Theorem empty_overlaps_no_finite_bounds b :
  finite_bounds b -> overlaps empty b = false /\ overlaps b empty = false.
Proof.
  intros [[Hminx _] [Hmaxx _]]. unfold overlaps.
  change (min_x empty) with Infinity. change (max_x empty) with NegInfinity.
  change (isFinite (min_x b) = true) in Hminx.
  change (isFinite (max_x b) = true) in Hmaxx.
  destruct (min_x b); try discriminate Hminx.
  destruct (max_x b); try discriminate Hmaxx.
  split; reflexivity.
Qed.

(** C10, on the unit square. *)
Lemma empty_overlaps_no_finite_bounds_witness :
  overlaps empty unit_box = false /\ overlaps unit_box empty = false.
Proof.
  apply (empty_overlaps_no_finite_bounds unit_box). repeat split.
Defined.

(** ** Further properties of the class *)

(** Unfolds the accessors down to the four coordinates. *)
Ltac coordinates :=
  cbv beta iota zeta delta
      [get_x get_y get_width get_height set_x set_y set_width set_height
       shift resize translate setMinMax
       set_min_x set_min_y set_max_x set_max_y
       min_x min_y max_x max_y min max Point.x Point.y plus].

(** X1. The [x] setter puts [min.x] at the value and leaves both [y]
    coordinates alone; when the sum of the value and the width is computed
    exactly, it keeps the width.  The [y] setter does the same on the other
    axis. *)
Theorem set_x_set_y_move_the_box this value :
  (get_x (set_x value this) = value
   /\ min_y (set_x value this) = min_y this
   /\ max_y (set_x value this) = max_y this
   /\ (exact_sum value (get_width this) ->
       get_width (set_x value this) = get_width this))
  /\ (get_y (set_y value this) = value
      /\ min_x (set_y value this) = min_x this
      /\ max_x (set_y value this) = max_x this
      /\ (exact_sum value (get_height this) ->
          get_height (set_y value this) = get_height this)).
Proof.
  destruct this as [[a b] [c d]]. coordinates.
  repeat split; intros He;
    (apply NumberFacts.add_then_sub;
     [apply NumberFacts.sub_binary64 | exact He]).
Qed.

(** X1, on the square [(0,0)-(2,2)] moved to [x = 5]: the width is still
    the width of the square. *)
Lemma set_x_set_y_move_the_box_witness :
  get_width (set_x (of_Z 5) square2) = get_width square2.
Proof.
  destruct (set_x_set_y_move_the_box square2 (of_Z 5))
    as [(_ & _ & _ & H) _].
  apply H. vm_compute. reflexivity.
Defined.

(** X2. [shift(vector)] has the effect of the [x] setter followed by the
    [y] setter, on every state. *)
Theorem shift_is_set_x_then_set_y vector this :
  shift vector this
  = set_y (Point.y vector) (set_x (Point.x vector) this).
Proof. destruct this as [[a b] [c d]], vector as [vx vy]. reflexivity. Qed.

(** X3. [shift(vector)] puts [min] at the vector, and when the sums of its
    components with the width and the height are computed exactly it keeps
    width and height. *)
Theorem shift_moves_min_keeps_size vector this :
  min (shift vector this) = vector
  /\ (exact_sum (Point.x vector) (get_width this) ->
      exact_sum (Point.y vector) (get_height this) ->
      get_width (shift vector this) = get_width this
      /\ get_height (shift vector this) = get_height this).
Proof.
  destruct this as [[a b] [c d]], vector as [vx vy].
  split; [reflexivity |]. coordinates. intros Hx Hy.
  split; (apply NumberFacts.add_then_sub;
          [apply NumberFacts.sub_binary64 | assumption]).
Qed.

(** X3, on the square [(0,0)-(2,2)] shifted to [(3, 4)]. *)
Lemma shift_moves_min_keeps_size_witness :
  get_width (shift vector34 square2) = get_width square2
  /\ get_height (shift vector34 square2) = get_height square2.
Proof.
  destruct (shift_moves_min_keeps_size vector34 square2) as [_ H].
  apply H; vm_compute; reflexivity.
Defined.

(** X4. [resize(width, height)] leaves [min] alone, and when the two sizes
    are numbers of the language whose sums with [min.x] and [min.y] are
    computed exactly, the getters then return those sizes. *)
Theorem resize_sets_the_size width height this :
  min (resize width height this) = min this
  /\ (binary64 width -> binary64 height ->
      exact_sum (min_x this) width -> exact_sum (min_y this) height ->
      get_width (resize width height this) = width
      /\ get_height (resize width height this) = height).
Proof.
  destruct this as [[a b] [c d]]. split; [reflexivity |].
  coordinates. intros Bw Bh Ew Eh.
  split; apply NumberFacts.add_then_sub; assumption.
Qed.

(** X4, on the square [(0,0)-(2,2)] resized to 3 by 4. *)
Lemma resize_sets_the_size_witness :
  get_width (resize (of_Z 3) (of_Z 4) square2) = of_Z 3
  /\ get_height (resize (of_Z 3) (of_Z 4) square2) = of_Z 4.
Proof.
  destruct (resize_sets_the_size (of_Z 3) (of_Z 4) square2) as [_ H].
  apply H; vm_compute; reflexivity.
Defined.







(** X9. Adding, without clear, vertices that the bounds already contains
    leaves it unchanged. *)
Theorem add_contained_vertices_is_noop V this :
  Forall (fun p => contains this p = true) V -> add V false this = this.
Proof.
  intros H. unfold add. apply BoundsFacts.add_loop_id.
  eapply List.Forall_impl; [| exact H].
  intros p Hp.
  apply BoundsFacts.inside_absorbs, BoundsFacts.contains_inside, Hp.
Qed.

(** X9, on the unit square and the origin. *)
Lemma add_contained_vertices_is_noop_witness :
  add [origin] false unit_box = unit_box.
Proof.
  apply (add_contained_vertices_is_noop [origin] unit_box).
  repeat constructor.
Defined.

(** X10. Adding the same vertices a second time changes nothing, whatever
    the state and the vertices, NaN included. *)
Theorem add_twice V (clear_flag : bool) this :
  add V false (add V clear_flag this) = add V clear_flag this.
Proof.
  unfold add at 1. apply BoundsFacts.add_loop_id.
  apply List.Forall_forall. intros v Hv.
  unfold add. apply BoundsFacts.add_loop_absorbs, Hv.
Qed.

(** X11. Adding the vertices of [V ++ W] is adding those of [V], then
    those of [W] without clear. *)
Theorem add_append V W (clear_flag : bool) this :
  add (V ++ W) clear_flag this = add W false (add V clear_flag this).
Proof. unfold add. apply BoundsFacts.add_loop_app. Qed.

(** X12. The result of [add] does not depend on the order of the
    vertices. *)
Theorem add_permutation V W (clear_flag : bool) this :
  Permutation V W -> add V clear_flag this = add W clear_flag this.
Proof. intros H. unfold add. apply BoundsFacts.add_loop_permutation, H. Qed.

(** X12, on the scenario of the specification and its reversal. *)
Lemma add_permutation_witness :
  add scenario true unit_box = add (rev scenario) true unit_box.
Proof.
  apply (add_permutation scenario (rev scenario) true unit_box).
  apply Permutation_rev.
Defined.

(** X13. [add] without clear never loses a point: what the bounds
    contained before, it contains after. *)
Theorem add_keeps_contained_points V this p :
  contains this p = true -> contains (add V false this) p = true.
Proof.
  intros H. apply BoundsFacts.contains_inside in H.
  apply BoundsFacts.contains_inside.
  eapply BoundsFacts.includes_inside; [| exact H].
  apply BoundsFacts.add_loop_includes, BoundsFacts.ordered_numeric.
  eapply BoundsFacts.inside_ordered, H.
Qed.

(** X13, on the unit square, the origin and the far vertex [(10, 0)]. *)
Lemma add_keeps_contained_points_witness :
  contains (add [far_point] false unit_box) origin = true.
Proof.
  apply (add_keeps_contained_points [far_point] unit_box origin).
  reflexivity.
Defined.

(** X14. [add] without clear keeps [min <= max] on both axes. *)
Theorem add_keeps_ordered V this :
  ordered this -> ordered (add V false this).
Proof.
  intros H. eapply BoundsFacts.includes_ordered; [| exact H].
  apply BoundsFacts.add_loop_includes, BoundsFacts.ordered_numeric, H.
Qed.

(** X14, on the unit square and the far vertex. *)
Lemma add_keeps_ordered_witness : ordered (add [far_point] false unit_box).
Proof.
  apply (add_keeps_ordered [far_point] unit_box).
  split; apply NumberFacts.le_iff; reflexivity.
Defined.

(** X15. After [update(V)] with at least one vertex without NaN, the
    bounds has [min <= max] on both axes, whatever it was before. *)
Theorem update_is_ordered V this p :
  In p V -> numeric_point p -> ordered (update V this).
Proof.
  intros Hin Hp. apply (BoundsFacts.inside_ordered _ p).
  unfold update, add. rewrite BoundsFacts.clear_empty.
  apply BoundsFacts.add_loop_inside;
    [apply BoundsFacts.empty_numeric | assumption | assumption].
Qed.

(** X15, on the crossed state [(5,0)-(3,0)] updated with the scenario. *)
Lemma update_is_ordered_witness : ordered (update scenario crossed_box).
Proof.
  apply (update_is_ordered scenario crossed_box (Point.mk (of_Z 1) (of_Z 1))).
  - left. reflexivity.
  - split; reflexivity.
Defined.

(** X16. Two bounds that contain a common point overlap. *)
Theorem common_point_overlaps a b p :
  contains a p = true -> contains b p = true -> overlaps a b = true.
Proof.
  intros Ha Hb.
  apply BoundsFacts.contains_inside in Ha as (A1 & A2 & A3 & A4).
  apply BoundsFacts.contains_inside in Hb as (B1 & B2 & B3 & B4).
  unfold overlaps.
  rewrite !andb_true_iff, !NumberFacts.ge_iff, !NumberFacts.le_iff.
  repeat split; eapply NumberFacts.Leq_trans; eassumption.
Qed.

(** X16, on the unit square, the square [(0,0)-(2,2)] and the origin. *)
Lemma common_point_overlaps_witness : overlaps unit_box square2 = true.
Proof.
  apply (common_point_overlaps unit_box square2 origin); reflexivity.
Defined.

(** X17. A bounds overlaps itself exactly when it has [min <= max] on
    both axes. *)
Theorem overlaps_self_iff_ordered a : overlaps a a = true <-> ordered a.
Proof.
  unfold overlaps, ordered.
  rewrite !andb_true_iff, !NumberFacts.ge_iff, !NumberFacts.le_iff. tauto.
Qed.

(** X18. Two bounds with [min <= max] on both axes that overlap have a
    common point: the larger of the two [min.x] with the larger of the two
    [min.y]. *)
Theorem overlaps_gives_common_point a b :
  ordered a -> ordered b -> overlaps a b = true ->
  exists p, contains a p = true /\ contains b p = true.
Proof.
  intros Ha Hb H.
  pose proof (BoundsFacts.ordered_numeric a Ha) as Na.
  pose proof (BoundsFacts.ordered_numeric b Hb) as Nb.
  apply BoundsFacts.numeric_fields in Na as (Na1 & Na2 & _ & _).
  apply BoundsFacts.numeric_fields in Nb as (Nb1 & Nb2 & _ & _).
  destruct Ha as [Hax Hay], Hb as [Hbx Hby].
  unfold overlaps in H.
  rewrite !andb_true_iff, !NumberFacts.ge_iff, !NumberFacts.le_iff in H.
  destruct H as (((H1 & H2) & H3) & H4).
  exists (Point.mk
            (if (min_x a <=? min_x b) then min_x b else min_x a)
            (if (min_y a <=? min_y b) then min_y b else min_y a)).
  split; apply BoundsFacts.contains_inside; unfold inside;
    cbn [Point.x Point.y];
    destruct (min_x a <=? min_x b) eqn:Ex;
    destruct (min_y a <=? min_y b) eqn:Ey;
    try apply NumberFacts.le_iff in Ex;
    try apply NumberFacts.le_iff in Ey;
    try apply NumberFacts.le_false_Leq in Ex;
    try apply NumberFacts.le_false_Leq in Ey;
    try assumption;
    repeat split; auto using NumberFacts.Leq_refl.
Qed.

(** X18, on the unit square and the square [(0,0)-(2,2)]. *)
Lemma overlaps_gives_common_point_witness :
  exists p, contains unit_box p = true /\ contains square2 p = true.
Proof.
  apply (overlaps_gives_common_point unit_box square2);
    try reflexivity; split; apply NumberFacts.le_iff; reflexivity.
Defined.

(** X19. On finite coordinates, width and height are both at least zero
    exactly when [min <= max] on both axes. *)
Theorem size_nonnegative_iff_ordered this :
  finite_bounds this ->
  Leq (of_Z 0) (get_width this) /\ Leq (of_Z 0) (get_height this)
  <-> ordered this.
Proof.
  intros [[Ha Hb] [Hc Hd]]. unfold get_width, get_height, ordered.
  change (isFinite (min_x this) = true) in Ha.
  change (isFinite (min_y this) = true) in Hb.
  change (isFinite (max_x this) = true) in Hc.
  change (isFinite (max_y this) = true) in Hd.
  rewrite (NumberFacts.sub_nonneg_iff _ _ Hc Ha).
  rewrite (NumberFacts.sub_nonneg_iff _ _ Hd Hb). tauto.
Qed.

(** X19, on the unit square. *)
Lemma size_nonnegative_iff_ordered_witness :
  Leq (of_Z 0) (get_width unit_box) /\ Leq (of_Z 0) (get_height unit_box).
Proof.
  apply (size_nonnegative_iff_ordered unit_box); [repeat split |].
  split; apply NumberFacts.le_iff; reflexivity.
Defined.

(** X21. [addBounds] on two instances of the heap always completes, and
    changes no instance other than its receiver: the argument, when it is
    another object, and every other instance are as before. *)
Theorem addBounds_changes_receiver_only
    this bounds clear_flag (σ : gmap nat Bounds.t) :
  live this bounds σ ->
  exists σ', addBounds this bounds clear_flag σ = Some σ'
             /\ forall r, r <> this -> σ' !! r = σ !! r.
Proof.
  intros Hlive.
  destruct (HeapFacts.addBounds_rewrites_receiver _ _ clear_flag _ Hlive)
    as [r ->].
  eexists. split; [reflexivity |].
  intros r' Hne. apply lookup_insert_ne. congruence.
Qed.

(** X21, on the heap [two_boxes]: the argument, at reference 1, is as
    before. *)
Lemma addBounds_changes_receiver_only_witness :
  exists σ', addBounds 0 1 true two_boxes = Some σ'
             /\ σ' !! 1 = Some centred_box.
Proof.
  destruct (addBounds_changes_receiver_only 0 1 true two_boxes)
    as (σ' & H & Hframe).
  - split; eexists; reflexivity.
  - exists σ'. split; [exact H |]. rewrite Hframe by discriminate.
    reflexivity.
Defined.

(** X22. Merging an instance with itself, without clear, leaves the heap
    as it is, whatever the state of the instance. *)
Theorem addBounds_self_is_noop this (σ : gmap nat Bounds.t) :
  is_Some (σ !! this) -> addBounds this this false σ = Some σ.
Proof. intros [t Ht]. eapply HeapFacts.addBounds_self, Ht. Qed.

(** X22, on the heap [one_box]. *)
Lemma addBounds_self_is_noop_witness :
  addBounds 0 0 false one_box = Some one_box.
Proof.
  apply (addBounds_self_is_noop 0 one_box). eexists. reflexivity.
Defined.

(** X23. With a receiver [t] and another object [b] as argument,
    [addBounds] without clear gives the receiver the larger [max.x], the
    smaller [min.x] and the larger [max.y] of the two; its [min.y] becomes
    [b.max.y] when [b.min.y < t.min.y] and is kept otherwise. *)
Theorem addBounds_distinct_fields
    this bounds (σ : gmap nat Bounds.t) t b :
  this <> bounds -> σ !! this = Some t -> σ !! bounds = Some b ->
  exists r,
    addBounds this bounds false σ = Some (<[this := r]> σ)
    /\ max_x r = (if max_x b >? max_x t then max_x b else max_x t)
    /\ min_x r = (if min_x b <? min_x t then min_x b else min_x t)
    /\ max_y r = (if max_y b >? max_y t then max_y b else max_y t)
    /\ min_y r = (if min_y b <? min_y t then max_y b else min_y t).
Proof.
  intros Hne Ht Hb. exists (merged b t).
  split; [apply HeapFacts.addBounds_distinct; assumption |].
  auto using HeapFacts.merged_max_x, HeapFacts.merged_min_x,
    HeapFacts.merged_max_y, HeapFacts.merged_min_y.
Qed.

(** X23, on the heap [two_boxes]. *)
Lemma addBounds_distinct_fields_witness :
  exists r,
    addBounds 0 1 false two_boxes = Some (<[0 := r]> two_boxes)
    /\ min_y r = of_Z 5.
Proof.
  destruct (addBounds_distinct_fields 0 1 two_boxes big_box centred_box)
    as (r & H & _ & _ & _ & Hy); [discriminate | reflexivity | reflexivity |].
  exists r. split; [exact H |]. rewrite Hy. reflexivity.
Defined.

(** X24. With a receiver that has [min <= max] on both axes and another
    object without NaN as argument, [addBounds] without clear keeps
    [min <= max] on both axes, and the receiver's [min.x] does not grow
    while its [max.x] and [max.y] do not shrink; they also reach those of
    the argument. *)
Theorem addBounds_keeps_ordered
    this bounds (σ : gmap nat Bounds.t) t b :
  this <> bounds -> σ !! this = Some t -> σ !! bounds = Some b ->
  ordered t -> numeric b ->
  exists r,
    addBounds this bounds false σ = Some (<[this := r]> σ)
    /\ ordered r
    /\ (Leq (min_x r) (min_x t) /\ Leq (max_x t) (max_x r)
        /\ Leq (max_y t) (max_y r))
    /\ (Leq (min_x r) (min_x b) /\ Leq (max_x b) (max_x r)
        /\ Leq (max_y b) (max_y r)).
Proof.
  intros Hne Ht Hb Hord Hnb. exists (merged b t).
  split; [apply HeapFacts.addBounds_distinct; assumption |].
  pose proof (BoundsFacts.ordered_numeric t Hord) as Hnt.
  apply BoundsFacts.numeric_fields in Hnt as (T1 & T2 & T3 & T4).
  apply BoundsFacts.numeric_fields in Hnb as (B1 & B2 & B3 & B4).
  destruct Hord as [Hx Hy].
  split; [| split].
  - unfold ordered.
    rewrite HeapFacts.merged_max_x, HeapFacts.merged_min_x,
      HeapFacts.merged_max_y, HeapFacts.merged_min_y.
    split.
    + eapply NumberFacts.Leq_trans;
        [apply BoundsFacts.lowered_below_old, T1 |].
      eapply NumberFacts.Leq_trans;
        [exact Hx | apply BoundsFacts.raised_above_old, T3].
    + destruct (min_y b <? min_y t).
      * apply BoundsFacts.raised_above_new; assumption.
      * eapply NumberFacts.Leq_trans;
          [exact Hy | apply BoundsFacts.raised_above_old, T4].
  - rewrite HeapFacts.merged_max_x, HeapFacts.merged_min_x,
      HeapFacts.merged_max_y.
    repeat split.
    + apply BoundsFacts.lowered_below_old, T1.
    + apply BoundsFacts.raised_above_old, T3.
    + apply BoundsFacts.raised_above_old, T4.
  - rewrite HeapFacts.merged_max_x, HeapFacts.merged_min_x,
      HeapFacts.merged_max_y.
    repeat split.
    + apply BoundsFacts.lowered_below_new; assumption.
    + apply BoundsFacts.raised_above_new; assumption.
    + apply BoundsFacts.raised_above_new; assumption.
Qed.

(** X24, on the heap [two_boxes]. *)
Lemma addBounds_keeps_ordered_witness :
  exists r,
    addBounds 0 1 false two_boxes = Some (<[0 := r]> two_boxes)
    /\ ordered r.
Proof.
  destruct (addBounds_keeps_ordered 0 1 two_boxes big_box centred_box)
    as (r & H & Hord & _).
  - discriminate.
  - reflexivity.
  - reflexivity.
  - split; apply NumberFacts.le_iff; reflexivity.
  - repeat split.
  - exists r. split; assumption.
Defined.

(** X25. With a receiver without NaN and another object with
    [min <= max] as argument, whenever the receiver's [min.y] is not above
    the argument's, so that the last test does not succeed, [addBounds]
    without clear does what [add] does with the two corners of the
    argument. *)
Theorem addBounds_is_add_of_corners
    this bounds (σ : gmap nat Bounds.t) t b :
  this <> bounds -> σ !! this = Some t -> σ !! bounds = Some b ->
  numeric t -> ordered b -> Leq (min_y t) (min_y b) ->
  addBounds this bounds false σ
  = Some (<[this := add [min b; max b] false t]> σ).
Proof.
  intros Hne Ht Hb Hnt Hob Hy.
  rewrite (HeapFacts.addBounds_distinct this bounds σ t b Hne Ht Hb).
  rewrite (HeapFacts.merged_is_add_corners b t Hnt Hob Hy). reflexivity.
Qed.

(** X25, on the heap [two_boxes] with the roles exchanged: receiver
    [(-5,-5)-(5,5)], argument [(0,0)-(10,10)]. *)
Lemma addBounds_is_add_of_corners_witness :
  addBounds 1 0 false two_boxes
  = Some (<[1 := add [min big_box; max big_box] false centred_box]>
            two_boxes).
Proof.
  apply (addBounds_is_add_of_corners 1 0 two_boxes centred_box big_box).
  - discriminate.
  - reflexivity.
  - reflexivity.
  - repeat split.
  - split; apply NumberFacts.le_iff; reflexivity.
  - apply NumberFacts.le_iff. reflexivity.
Defined.
